(** * bitcoin-cli-rpc-wrapper: the RPC client and its parameter validator

    A shallow embedding of [src/commands/validators.py] (class
    [InputValidator]) and [src/rpc_client.py] (classes [BitcoinRPCError]
    and [BitcoinRPCClient]), followed by the properties of the
    specification that concern them.

    Layout:
    - [Py]         the Python values and built-ins the two files rely on;
    - [Validators] [InputValidator.sanitize_rpc_param] and
                   [InputValidator.validate_json_rpc_params];
    - [RpcClient]  [BitcoinRPCClient]: session set-up, [_create_request],
                   [_handle_response], [call], [close];
    - the notions the statements use, then the lemmas and theorems on
      the validator and on the client.

    The rest of the two files and their callers follow the same scheme:
    - [Re], [Builtins]   [re.match] for the patterns of the validators,
                         and [int] and [str] on integers and texts;
    - [ConfigValidator], [InputValidator]   the validators of ports,
                         timeouts, hashes, heights and addresses, and the
                         module-level [validate_*] functions;
    - [Diagnostics]      [test_connection] and [get_node_info];
    - [Commands]         the methods of [BlockchainCommands],
                         [NetworkCommands] and [WalletCommands] that check
                         or shape their arguments before [call];
    with their own notions, lemmas and theorems.

    Exceptions are values of [result]; the effects a property can speak
    of (the post of a request, the decoding of a body, the closing of the
    session) are returned as a list of events.

    The logger writes nothing that is modelled here, but the f-string
    handed to it is evaluated first, whatever the logging level, and
    showing an [int] of more than 4300 digits raises [ValueError].  The
    f-strings that show an argument of the caller are therefore modelled
    ([logged]): the debug line of [call] and those of the commands.  The
    others show texts, exceptions of the transport, configured numbers or
    members of a decoded body, whose integers [response.json()] read with
    [int] from a numeral and which are within that limit: they raise
    nothing and are left out, with the suppression of the TLS warning. *)

From Stdlib Require Import ZArith List String Ascii Bool Lia DecimalString.
From Stdlib.Strings Require Import Byte.
From Stdlib Require Import DecimalPos DecimalZ.
Import ListNotations.

Set Warnings "-register-all".

Open Scope list_scope.
Open Scope string_scope.

(* ================================================================= *)
(** * Python values and built-ins *)

Module Py.

(** The objects that reach the validator and that [response.json()]
    yields.  A [str] is a [string] of 8-bit code points; an [int] is
    unbounded; a [float] is identified by its [repr] (the shortest
    literal that round-trips, such as [1.5], [inf] or [nan]), which is the
    only observation this program makes of one; a [dict] keeps insertion
    order and has [str] keys; [bytes] stands for the objects that are
    neither JSON scalars nor [list] nor [dict]. *)
Inductive PyVal : Type :=
| PNone
| PBool (b : bool)
| PInt (n : Z)
| PFloat (literal : string)
| PStr (s : string)
| PBytes (bs : list byte)
| PList (xs : list PyVal)
| PDict (kvs : list (string * PyVal)).

(** The exceptions that the two source files raise or catch. *)
Record BitcoinRPCError : Type := mkBitcoinRPCError {
  message : PyVal;
  code : PyVal;
  data : PyVal
}.

Inductive Exn : Type :=
| ValueError (msg : string)
| TypeError (msg : string)
| AttributeError (msg : string)
| KeyError (msg : string)
| RPCError (e : BitcoinRPCError).

Inductive result (A : Type) : Type :=
| Ok (a : A)
| Raise (e : Exn).
Arguments Ok {A} a.
Arguments Raise {A} e.

Definition bind {A B : Type} (r : result A) (k : A -> result B) : result B :=
  match r with
  | Ok a => k a
  | Raise e => Raise e
  end.

Notation "x <- r ;; k" := (bind r (fun x => k))
  (at level 61, r at next level, right associativity).

(** ** Characters *)

Definition chr (n : nat) : ascii := ascii_of_nat n.
Definition LF : ascii := chr 10.
Definition CR : ascii := chr 13.
Definition TAB : ascii := chr 9.
Definition BACKSLASH : ascii := chr 92.
Definition QUOTE : ascii := chr 39.
Definition DQUOTE : ascii := chr 34.

Definition str1 (c : ascii) : string := String c EmptyString.

Definition in_range (lo hi c : ascii) : bool :=
  (nat_of_ascii lo <=? nat_of_ascii c)%nat && (nat_of_ascii c <=? nat_of_ascii hi)%nat.

Fixpoint string_forallb (p : ascii -> bool) (s : string) : bool :=
  match s with
  | EmptyString => true
  | String c rest => p c && string_forallb p rest
  end.

Fixpoint string_existsb (p : ascii -> bool) (s : string) : bool :=
  match s with
  | EmptyString => false
  | String c rest => p c || string_existsb p rest
  end.

Fixpoint join (sep : string) (parts : list string) : string :=
  match parts with
  | [] => ""
  | [p] => p
  | p :: rest => p ++ sep ++ join sep rest
  end.

(** ** [str] and [repr] *)

Definition hex_digit (n : nat) : ascii :=
  if (n <? 10)%nat then chr (48 + n) else chr (87 + n).

Definition escape_x (c : ascii) : string :=
  let n := nat_of_ascii c in
  String BACKSLASH (String "x" (String (hex_digit (n / 16)) (str1 (hex_digit (n mod 16))))).

(** [repr] surrounds with single quotes unless the text holds a single
    quote and no double quote. *)
Definition repr_quote (s : string) : ascii :=
  if string_existsb (Ascii.eqb QUOTE) s && negb (string_existsb (Ascii.eqb DQUOTE) s)
  then DQUOTE else QUOTE.

(** Printable code points below 256, as [str.isprintable] has them. *)
Definition str_printable (c : ascii) : bool :=
  let n := nat_of_ascii c in
  ((32 <=? n) && (n <? 127) || (161 <=? n) && negb (n =? 173))%nat.

Definition bytes_printable (c : ascii) : bool :=
  let n := nat_of_ascii c in ((32 <=? n) && (n <? 127))%nat.

Definition repr_char (printable : ascii -> bool) (quote c : ascii) : string :=
  if Ascii.eqb c quote || Ascii.eqb c BACKSLASH then String BACKSLASH (str1 c)
  else if Ascii.eqb c TAB then String BACKSLASH "t"
  else if Ascii.eqb c LF then String BACKSLASH "n"
  else if Ascii.eqb c CR then String BACKSLASH "r"
  else if printable c then str1 c
  else escape_x c.

Fixpoint repr_chars (printable : ascii -> bool) (quote : ascii) (s : string) : string :=
  match s with
  | EmptyString => ""
  | String c rest => repr_char printable quote c ++ repr_chars printable quote rest
  end.

Definition repr_str (s : string) : string :=
  let q := repr_quote s in
  String q (repr_chars str_printable q s ++ str1 q).

Definition string_of_bytes (bs : list byte) : string :=
  string_of_list_ascii (map ascii_of_byte bs).

Definition repr_bytes (bs : list byte) : string :=
  let s := string_of_bytes bs in
  let q := repr_quote s in
  String "b" (String q (repr_chars bytes_printable q s ++ str1 q)).

(** The interpreter refuses to convert between an [int] and a text of
    more than 4300 digits (its default
    [sys.int_info.default_max_str_digits]); the sign does not count. *)
Definition max_str_digits : nat := 4300.

(** The decimal numeral of an integer, with its sign when negative. *)
Definition decimal (n : Z) : string := NilZero.string_of_int (Z.to_int n).

Definition int_too_long : string :=
  "Exceeds the limit (4300 digits) for integer string conversion; "
  ++ "use sys.set_int_max_str_digits() to increase the limit".

(** [str(n)], [repr(n)] and [f"{n}"] for an [int]: a [ValueError] when the
    numeral has more than 4300 digits. *)
Definition str_int (n : Z) : result string :=
  if (max_str_digits <? String.length (decimal (Z.abs n)))%nat
  then Raise (ValueError int_too_long)
  else Ok (decimal n).

(** [f] on each element from the left, up to the first that raises. *)
Definition each {A B : Type} (f : A -> result B) : list A -> result (list B) :=
  fix each_from (xs : list A) : result (list B) :=
    match xs with
    | [] => Ok []
    | x :: rest =>
        y <- f x ;;
        ys <- each_from rest ;;
        Ok (y :: ys)
    end.

(** [repr(x)]; that of a [list] or of a [dict] asks each member for its
    own, and raises what a member raises. *)
Fixpoint repr (v : PyVal) : result string :=
  match v with
  | PNone => Ok "None"
  | PBool true => Ok "True"
  | PBool false => Ok "False"
  | PInt n => str_int n
  | PFloat literal => Ok literal
  | PStr s => Ok (repr_str s)
  | PBytes bs => Ok (repr_bytes bs)
  | PList xs =>
      parts <- each repr xs ;;
      Ok ("[" ++ join ", " parts ++ "]")
  | PDict kvs =>
      parts <- each (fun kv => match kv with
                               | (k, x) => shown <- repr x ;; Ok (repr_str k ++ ": " ++ shown)
                               end) kvs ;;
      Ok ("{" ++ join ", " parts ++ "}")
  end.

(** The built-in [str(x)], which is also what an f-string shows of [x]:
    the text itself for a [str], [repr] otherwise. *)
Definition str (v : PyVal) : result string :=
  match v with
  | PStr s => Ok s
  | _ => repr v
  end.

(** [type(x).__name__] and [str(type(x))]. *)
Definition type_name (v : PyVal) : string :=
  match v with
  | PNone => "NoneType"
  | PBool _ => "bool"
  | PInt _ => "int"
  | PFloat _ => "float"
  | PStr _ => "str"
  | PBytes _ => "bytes"
  | PList _ => "list"
  | PDict _ => "dict"
  end.

Definition str_type (v : PyVal) : string :=
  "<class '" ++ type_name v ++ "'>".

(** ** Dictionaries and the operators [_handle_response] applies *)

Fixpoint lookup (k : string) (kvs : list (string * PyVal)) : option PyVal :=
  match kvs with
  | [] => None
  | (k', x) :: rest => if String.eqb k k' then Some x else lookup k rest
  end.

Definition is_none (v : PyVal) : bool :=
  match v with
  | PNone => true
  | _ => false
  end.

Definition is_str_eq (k : string) (v : PyVal) : bool :=
  match v with
  | PStr s => String.eqb k s
  | _ => false
  end.

Fixpoint is_prefix (p s : string) : bool :=
  match p, s with
  | EmptyString, _ => true
  | String a p', String b s' => Ascii.eqb a b && is_prefix p' s'
  | String _ _, EmptyString => false
  end.

Fixpoint is_substring (p s : string) : bool :=
  is_prefix p s ||
  match s with
  | EmptyString => false
  | String _ s' => is_substring p s'
  end.

(** [k in container] for a [str] [k]. *)
Definition contains (k : string) (container : PyVal) : result bool :=
  match container with
  | PDict kvs => Ok (match lookup k kvs with Some _ => true | None => false end)
  | PList xs => Ok (existsb (is_str_eq k) xs)
  | PStr s => Ok (is_substring k s)
  | PBytes _ => Raise (TypeError "a bytes-like object is required, not 'str'")
  | v => Raise (TypeError ("argument of type '" ++ type_name v ++ "' is not iterable"))
  end.

(** [container[k]] for a [str] [k]. *)
Definition getitem (container : PyVal) (k : string) : result PyVal :=
  match container with
  | PDict kvs =>
      match lookup k kvs with
      | Some x => Ok x
      | None => Raise (KeyError (repr_str k))
      end
  | PList _ => Raise (TypeError "list indices must be integers or slices, not str")
  | PStr _ => Raise (TypeError "string indices must be integers, not 'str'")
  | PBytes _ => Raise (TypeError "byte indices must be integers or slices, not str")
  | v => Raise (TypeError ("'" ++ type_name v ++ "' object is not subscriptable"))
  end.

(** [obj.get(k, default)]: only a [dict] has the method. *)
Definition get (obj : PyVal) (k : string) (default : PyVal) : result PyVal :=
  match obj with
  | PDict kvs =>
      Ok (match lookup k kvs with Some x => x | None => default end)
  | v => Raise (AttributeError ("'" ++ type_name v ++ "' object has no attribute 'get'"))
  end.

End Py.

(* ================================================================= *)
(** * commands/validators.py: class InputValidator *)

Module Validators.
Import Py.

(** The class [[a-zA-Z0-9\-_./:]] of the pattern in [sanitize_rpc_param]:
    three ranges and the five literals [-], [_], [.], [/] and [:]. *)
Definition allowed_class (c : ascii) : bool :=
  in_range "a" "z" c || in_range "A" "Z" c || in_range "0" "9" c
  || Ascii.eqb c "-" || Ascii.eqb c "_" || Ascii.eqb c "."
  || Ascii.eqb c "/" || Ascii.eqb c ":".

(** [$] in a pattern compiled without [re.MULTILINE]: it matches at the
    end of the string and also just before a newline that is the last
    character of the string. *)
Definition at_dollar (rest : string) : bool :=
  match rest with
  | EmptyString => true
  | String c EmptyString => Ascii.eqb c LF
  | String _ (String _ _) => false
  end.

(** [[...]+$] tried from the current position: one character of the
    class, then either the [$] or a longer run. *)
Fixpoint class_plus_dollar (s : string) : bool :=
  match s with
  | EmptyString => false
  | String c rest => allowed_class c && (at_dollar rest || class_plus_dollar rest)
  end.

(** [allowed_chars.match(param)] for
    [allowed_chars = re.compile(r'^[a-zA-Z0-9\-_./:]+$')]: [match] and
    [^] both anchor the attempt at the first character. *)
Definition allowed_chars_match (param : string) : bool :=
  class_plus_dollar param.

(** [InputValidator.sanitize_rpc_param] *)
Definition sanitize_rpc_param (param : PyVal) : result PyVal :=
  match param with
  | PStr s =>
      if negb (allowed_chars_match s)
      then Raise (ValueError ("Invalid characters in parameter: " ++ s))
      else Ok param
  | _ =>
      text <- str param ;;
      Ok (PStr text)
  end.

(** The loop of [validate_json_rpc_params]: [validated_params] is the list
    being appended to. *)
Fixpoint validate_loop (params validated_params : list PyVal) : result (list PyVal) :=
  match params with
  | [] => Ok validated_params
  | param :: rest =>
      match param with
      | PStr _ =>
          v <- sanitize_rpc_param param ;;
          validate_loop rest (validated_params ++ [v])%list
      | PInt _ | PFloat _ | PBool _ =>
          validate_loop rest (validated_params ++ [param])%list
      | PNone =>
          validate_loop rest (validated_params ++ [param])%list
      | PList _ | PDict _ =>
          validate_loop rest (validated_params ++ [param])%list
      | _ => Raise (ValueError ("Unsupported parameter type: " ++ str_type param))
      end
  end.

(** [InputValidator.validate_json_rpc_params] *)
Definition validate_json_rpc_params (params : list PyVal) : result (list PyVal) :=
  validate_loop params [].

End Validators.

(* ================================================================= *)
(** * rpc_client.py: class BitcoinRPCClient *)

Module RpcClient.
Import Py.
Import Validators.

(** The attributes of [config.Config] that the client reads.  [port] and
    [timeout] are made by [Config._load_config] with [int] from a text,
    which holds them within the 4300 digits that can be shown: where the
    client formats one, its numeral is at hand. *)
Record Config : Type := mkConfig {
  host : string;
  port : Z;
  user : string;
  password : string;
  timeout : Z;
  use_ssl : bool;
  ssl_verify : bool;
  ssl_cert_path : option string
}.

(** [Config.rpc_url] *)
Definition rpc_url (config : Config) : string :=
  (if use_ssl config then "https" else "http")
  ++ "://" ++ host config ++ ":" ++ decimal (port config).

(** [Config.auth] *)
Definition auth (config : Config) : string * string :=
  (user config, password config).

(** [urllib3.util.retry.Retry] and [requests.adapters.HTTPAdapter], as far
    as [_setup_session] configures them. *)
Record Retry : Type := mkRetry {
  total : Z;
  backoff_factor : Z;
  status_forcelist : list Z;
  allowed_methods : list string
}.

Record HTTPAdapter : Type := mkHTTPAdapter {
  max_retries : Retry;
  pool_connections : Z;
  pool_maxsize : Z
}.

(** [requests.Session], as far as [_setup_session] configures it. *)
Record Session : Type := mkSession {
  session_auth : string * string;
  session_headers : list (string * string);
  session_adapters : list (string * HTTPAdapter);
  session_verify : bool;
  session_cert : option string
}.

Record BitcoinRPCClient : Type := mkClient {
  config : Config;
  session : option Session
}.

(** [BitcoinRPCClient._setup_session]: the session it stores in
    [self.session]. *)
Definition _setup_session (config : Config) : Session :=
  let retry_strategy := mkRetry 3 1 [429; 500; 502; 503; 504]%Z ["POST"] in
  let adapter := mkHTTPAdapter retry_strategy 10 20 in
  mkSession
    (auth config)
    [("Content-Type", "application/json");
     ("User-Agent", "Bitcoin-CLI-Wrapper/1.0");
     ("Connection", "keep-alive")]
    [("http://", adapter); ("https://", adapter)]
    (if use_ssl config then ssl_verify config else true)
    (if use_ssl config then ssl_cert_path config else None).

(** [BitcoinRPCClient.__init__] *)
Definition __init__ (config : Config) : BitcoinRPCClient :=
  mkClient config (Some (_setup_session config)).

(** The request dictionary of [_create_request]. *)
Record Request : Type := mkRequest {
  req_jsonrpc : string;
  req_id : Z;
  req_method : string;
  req_params : list PyVal
}.

(** What [requests.Response] shows to [_handle_response]: the status, the
    body text, and what [response.json()] gives, [None] when it raises
    [json.JSONDecodeError]. *)
Record Response : Type := mkResponse {
  status_code : Z;
  text : string;
  json : option PyVal
}.

(** [session.post] returns a response or raises; an exception is named by
    the first [except] clause of [call] that catches it. *)
Inductive PostOutcome : Type :=
| Returned (response : Response)
| RaisedConnectionError (e : string)
| RaisedTimeout (e : string)
| RaisedRequestException (e : string)
| RaisedException (e : string).

(** The environment of a call: the clock behind [time.time()], in
    microseconds, and the network behind [session.post] (which runs the
    adapter's retries itself). *)
Record World : Type := mkWorld {
  time_us : Z;
  post : Session -> string -> Request -> Z -> PostOutcome
}.

(** The effects a claim can be about. *)
Inductive Event : Type :=
| EvPost (url : string) (request_data : Request) (timeout : Z)
| EvJson
| EvSessionClose.

(** [BitcoinRPCError(message, code)] with a text message and an integer
    code; [data] keeps its default [None]. *)
Definition rpc_error (message : string) (code : Z) : Exn :=
  RPCError (mkBitcoinRPCError (PStr message) (PInt code) PNone).

(** [BitcoinRPCError.__str__] *)
Definition BitcoinRPCError_str (e : BitcoinRPCError) : result string :=
  shown_code <- str (code e) ;;
  shown_message <- str (message e) ;;
  Ok ("Bitcoin RPC Error " ++ shown_code ++ ": " ++ shown_message).

(** [str(e)] for a caught exception. *)
Definition exn_str (e : Exn) : result string :=
  match e with
  | ValueError msg | TypeError msg | AttributeError msg | KeyError msg => Ok msg
  | RPCError e => BitcoinRPCError_str e
  end.

(** [BitcoinRPCClient._create_request] *)
Definition _create_request (w : World) (method : string) (params : option (list PyVal)) : Request :=
  let request_id := time_us w in
  mkRequest "2.0" request_id method
    (match params with
     | Some (p :: ps) => p :: ps
     | Some [] | None => []
     end).

(** [response.raise_for_status()] of the requests library raises
    [HTTPError] exactly for the client and server error statuses,
    400 to 599. *)
Definition raise_for_status (response : Response) : bool :=
  ((400 <=? status_code response) && (status_code response <? 600))%Z.

(** The body of [_handle_response] once [data = response.json()] is at hand. *)
Definition handle_data (data : PyVal) : result PyVal :=
  has_error <-
    (present <- contains "error" data ;;
     if (present : bool)
     then (e <- getitem data "error" ;; Ok (negb (is_none e)))
     else Ok false) ;;
  if (has_error : bool) then
    error <- getitem data "error" ;;
    m <- get error "message" (PStr "Unknown RPC error") ;;
    c <- get error "code" (PInt (-1)) ;;
    d <- get error "data" PNone ;;
    Raise (RPCError (mkBitcoinRPCError m c d))
  else
    get data "result" PNone.

(** The [except requests.exceptions.HTTPError] block of
    [_handle_response]: the error raised for an error status, which has
    three digits. *)
Definition http_error (response : Response) : Exn :=
  if (status_code response =? 401)%Z then rpc_error "Authentication failed" (-1)
  else if (status_code response =? 403)%Z then rpc_error "Access forbidden" (-1)
  else if (status_code response =? 404)%Z then rpc_error "RPC endpoint not found" (-1)
  else rpc_error ("HTTP " ++ decimal (status_code response) ++ ": " ++ text response) (-1).

(** [BitcoinRPCClient._handle_response] *)
Definition _handle_response (response : Response) : list Event * result PyVal :=
  if raise_for_status response then ([], Raise (http_error response))
  else
    match json response with
    | None =>
        ([EvJson], Raise (rpc_error ("Invalid JSON response: " ++ text response) (-32700)))
    | Some data => ([EvJson], handle_data data)
    end.

(** The truth value of [params] in [if params:]. *)
Definition truthy (params : option (list PyVal)) : bool :=
  match params with
  | Some (_ :: _) => true
  | Some [] | None => false
  end.

(** The validation block at the head of [call]: a [ValueError] of the
    validator becomes the invalid-parameters error, code -32602. *)
Definition validated_params (params : option (list PyVal)) : result (option (list PyVal)) :=
  if truthy params then
    match validate_json_rpc_params (match params with Some ps => ps | None => [] end) with
    | Ok params' => Ok (Some params')
    | Raise (ValueError e) => Raise (rpc_error ("Invalid parameters: " ++ e) (-32602))
    | Raise e => Raise e
    end
  else Ok params.

(** The [except] clauses of [call] applied to what [_handle_response]
    gives: a [BitcoinRPCError] is raised again as it is, any other
    exception is reported as unexpected. *)
Definition except_clauses (outcome : result PyVal) : result PyVal :=
  match outcome with
  | Ok result => Ok result
  | Raise (RPCError e) => Raise (RPCError e)
  | Raise e =>
      shown <- exn_str e ;;
      Raise (rpc_error ("Unexpected error: " ++ shown) (-1))
  end.

(** [self.logger.debug(f"...")]: the f-string is evaluated whatever the
    logging level, and what it raises is raised at that line; the line
    written changes nothing of what follows. *)
Definition logged {A : Type} (line : result string) (next : list Event * result A)
    : list Event * result A :=
  match line with
  | Ok _ => next
  | Raise e => ([], Raise e)
  end.

(** [params] as the f-string of the debug line of [call] shows it. *)
Definition str_params (params : option (list PyVal)) : result string :=
  match params with
  | Some ps => str (PList ps)
  | None => str PNone
  end.

(** [f"RPC call: {method} with params: {params}"], evaluated between
    [_create_request] and the [try]. *)
Definition rpc_call_line (method : string) (params : option (list PyVal)) : result string :=
  shown <- str_params params ;;
  Ok ("RPC call: " ++ method ++ " with params: " ++ shown).

(** The [session.post(self.config.rpc_url, json=request_data,
    timeout=self.config.timeout)] of [call], as an event. *)
Definition sent (w : World) (self : BitcoinRPCClient) (method : string)
    (params : option (list PyVal)) : Event :=
  EvPost (rpc_url (config self)) (_create_request w method params) (timeout (config self)).

(** [BitcoinRPCClient.call] *)
Definition call (w : World) (self : BitcoinRPCClient) (method : string)
    (params : option (list PyVal)) : list Event * result PyVal :=
  match session self with
  | None => ([], Raise (rpc_error "RPC client not initialized" (-1)))
  | Some sess =>
      match validated_params params with
      | Raise e => ([], Raise e)
      | Ok params =>
          let request_data := _create_request w method params in
          logged (rpc_call_line method params)
            (let url := rpc_url (config self) in
             match post w sess url request_data (timeout (config self)) with
             | Returned response =>
                 let (events, outcome) := _handle_response response in
                 (sent w self method params :: events, except_clauses outcome)
             | RaisedConnectionError _ =>
                 ([sent w self method params],
                  Raise (rpc_error ("Cannot connect to Bitcoin node at " ++ url) (-1)))
             | RaisedTimeout _ =>
                 ([sent w self method params],
                  Raise (rpc_error ("Request timeout after "
                                    ++ decimal (timeout (config self)) ++ " seconds") (-1)))
             | RaisedRequestException e =>
                 ([sent w self method params], Raise (rpc_error ("Request failed: " ++ e) (-1)))
             | RaisedException e =>
                 ([sent w self method params], Raise (rpc_error ("Unexpected error: " ++ e) (-1)))
             end)
      end
  end.

(** [BitcoinRPCClient.close] *)
Definition close (self : BitcoinRPCClient) : list Event * BitcoinRPCClient :=
  match session self with
  | Some _ => ([EvSessionClose], mkClient (config self) None)
  | None => ([], self)
  end.

End RpcClient.

(* ================================================================= *)
(** * Notions used by the statements *)

Import Py.
Import Validators.
Import RpcClient.

(** [s] without its last character when that is a newline. *)
Fixpoint chomp (s : string) : string :=
  match s with
  | EmptyString => ""
  | String c EmptyString => if Ascii.eqb c LF then "" else s
  | String c rest => String c (chomp rest)
  end.

Definition nonempty (s : string) : bool :=
  match s with
  | EmptyString => false
  | String _ _ => true
  end.

Definition is_str (p : PyVal) : bool :=
  match p with
  | PStr _ => true
  | _ => false
  end.

(** The parameters that are [int], [float], [bool], [None], [list] or
    [dict]: the validator appends them as they are. *)
Definition passes_through (p : PyVal) : bool :=
  match p with
  | PNone | PBool _ | PInt _ | PFloat _ | PList _ | PDict _ => true
  | PStr _ | PBytes _ => false
  end.

(** The parameters whose type is none of the seven the validator knows. *)
Definition unsupported (p : PyVal) : bool :=
  match p with
  | PBytes _ => true
  | _ => false
  end.

(** The parameters one turn of the validator's loop lets through. *)
Definition accepted (p : PyVal) : bool :=
  match p with
  | PStr s => allowed_chars_match s
  | PBytes _ => false
  | _ => true
  end.

(** The message of the [ValueError] one turn of the loop raises. *)
Definition rejection (p : PyVal) : string :=
  match p with
  | PStr s => "Invalid characters in parameter: " ++ s
  | _ => "Unsupported parameter type: " ++ str_type p
  end.

(** A 2xx status. *)
Definition success_status (response : Response) : Prop :=
  (200 <= status_code response < 300)%Z.

(** A client or server error status, 4xx or 5xx. *)
Definition error_status (response : Response) : Prop :=
  (400 <= status_code response < 600)%Z.

(** [call w self method params] got as far as the network, sending the
    validated [params'], and the network returned [response]. *)
Definition answered (w : World) (self : BitcoinRPCClient) (method : string)
    (params params' : option (list PyVal)) (response : Response) : Prop :=
  exists sess,
    session self = Some sess /\
    validated_params params = Ok params' /\
    (exists line : string, rpc_call_line method params' = Ok line) /\
    post w sess (rpc_url (config self)) (_create_request w method params')
         (timeout (config self)) = Returned response.

(** [d.get(k, default)] on the items of a [dict]. *)
Definition get_or (kvs : list (string * PyVal)) (k : string) (default : PyVal) : PyVal :=
  match lookup k kvs with
  | Some x => x
  | None => default
  end.

(** The member [k] of a mapping is missing or [null]. *)
Definition absent_or_null (kvs : list (string * PyVal)) (k : string) : Prop :=
  lookup k kvs = None \/ lookup k kvs = Some PNone.

(** [close] called [n] times in a row; the events of all the calls. *)
Fixpoint close_times (n : nat) (self : BitcoinRPCClient) : list Event * BitcoinRPCClient :=
  match n with
  | O => ([], self)
  | S n' =>
      let (events, self') := close self in
      let (events', self'') := close_times n' self' in
      ((events ++ events')%list, self'')
  end.

(** The integers that [str] shows, and the values made of such integers
    only, at any depth. *)
Definition int_has_text (n : Z) : bool :=
  (String.length (decimal (Z.abs n)) <=? max_str_digits)%nat.

Fixpoint has_text (v : PyVal) : bool :=
  match v with
  | PInt n => int_has_text n
  | PList xs => forallb has_text xs
  | PDict kvs => forallb (fun kv => has_text (snd kv)) kvs
  | _ => true
  end.

(** The parameters of a call that all have a text. *)
Definition params_have_text (params : option (list PyVal)) : bool :=
  match params with
  | Some ps => forallb has_text ps
  | None => true
  end.

(** The integer whose numeral is a one followed by [k] zeros. *)
Definition one_and_zeros (k : nat) : Z :=
  Z.of_int (Decimal.Pos (Decimal.D1 (Nat.iter k Decimal.D0 Decimal.Nil))).

(** A configuration and servers for the scenarios. *)
Definition local_config : Config :=
  mkConfig "127.0.0.1" 8332 "rpcuser" "rpcpassword" 30 false true None.

Definition server (response : Response) : World :=
  mkWorld 1700000000000000 (fun _ _ _ _ => Returned response).

Definition newline : string := str1 LF.

(* ================================================================= *)
(** * The built-ins [re.match] and [int] *)

Module Re.
Import Py.
Import Validators.

(** The pattern items the validators use. *)
Inductive item : Type :=
| Caret
| Dollar
| Lit (c : ascii)
| Repeat (class : ascii -> bool) (lo hi : nat).

(** One character of a class. *)
Definition One (class : ascii -> bool) : item := Repeat class 1 1.

(** [class{lo,hi}] followed by the rest of the pattern [k]: between [lo]
    and [hi] characters of the class, any count for which [k] matches.
    [prev] is the character before the position, if any. *)
Fixpoint repeat_then (class : ascii -> bool) (lo hi : nat)
    (k : option ascii -> string -> bool) (prev : option ascii) (s : string) : bool :=
  ((lo =? 0)%nat && k prev s) ||
  match hi, s with
  | S hi', String c rest => class c && repeat_then class (Nat.pred lo) hi' k (Some c) rest
  | _, _ => false
  end.

(** The pattern from the current position; [prev] is [None] at the start
    of the string only. *)
Fixpoint match_here (items : list item) (prev : option ascii) (s : string) : bool :=
  match items with
  | [] => true
  | Caret :: items' =>
      match prev with
      | None => match_here items' prev s
      | Some _ => false
      end
  | Dollar :: items' => at_dollar s && match_here items' prev s
  | Lit c :: items' =>
      match s with
      | String d rest => Ascii.eqb c d && match_here items' (Some d) rest
      | EmptyString => false
      end
  | Repeat class lo hi :: items' => repeat_then class lo hi (match_here items') prev s
  end.

(** [re.match(pattern, s) is not None]: the pattern is tried at the first
    character only and need not reach the end. *)
Definition re_match (pattern : list item) (s : string) : bool :=
  match_here pattern None s.

End Re.

Module Builtins.
Import Py.

(** The code points below 256 that [int] drops at both ends of its
    argument: the ASCII white space (tab to carriage return, and the
    space) and the two white spaces above 127. *)
Definition is_space (c : ascii) : bool :=
  let n := nat_of_ascii c in
  ((9 <=? n) && (n <=? 13) || (n =? 32) || (n =? 133) || (n =? 160))%nat.

Fixpoint lstrip (s : string) : string :=
  match s with
  | EmptyString => ""
  | String c rest => if is_space c then lstrip rest else s
  end.

Fixpoint rstrip (s : string) : string :=
  match s with
  | EmptyString => ""
  | String c rest =>
      match rstrip rest with
      | EmptyString => if is_space c then "" else str1 c
      | rest' => String c rest'
      end
  end.

Definition strip (s : string) : string := rstrip (lstrip s).

Definition is_digit (c : ascii) : bool := in_range "0" "9" c.

Definition digit_value (c : ascii) : Z := Z.of_nat (nat_of_ascii c - 48).

(** The digits of a decimal literal: a digit first, then digits, single
    underscores allowed between two digits.  [after_digit] tells whether
    the character before was a digit. *)
Fixpoint digits (acc : Z) (after_digit : bool) (s : string) : option Z :=
  match s with
  | EmptyString => if after_digit then Some acc else None
  | String c rest =>
      if is_digit c then digits (acc * 10 + digit_value c) true rest
      else if Ascii.eqb c "_" && after_digit then digits acc false rest
      else None
  end.

(** The digits that count for the limit [max_str_digits] when a text is
    read: underscores, the sign and the white space do not. *)
Fixpoint count_digits (s : string) : nat :=
  match s with
  | EmptyString => 0
  | String c rest => ((if is_digit c then 1 else 0) + count_digits rest)%nat
  end.

(** The longest prefix of characters that satisfy [p], and what follows. *)
Fixpoint span (p : ascii -> bool) (s : string) : string * string :=
  match s with
  | EmptyString => ("", "")
  | String c rest =>
      if p c then let (run, after) := span p rest in (String c run, after)
      else ("", s)
  end.

Inductive int_outcome : Type :=
| Value (n : Z)
| InvalidLiteral
| ExceedsLimit (digits : nat).

(** The numeral after the sign: the run of digits and underscores is read
    first, then checked against the limit, and only then must the text be
    at its end. *)
Definition literal (body : string) : int_outcome :=
  let (run, after) := span (fun c => is_digit c || Ascii.eqb c "_") body in
  match digits 0 false run with
  | None => InvalidLiteral
  | Some n =>
      if (max_str_digits <? count_digits run)%nat then ExceedsLimit (count_digits run)
      else match after with
           | EmptyString => Value n
           | String _ _ => InvalidLiteral
           end
  end.

Definition negate (o : int_outcome) : int_outcome :=
  match o with
  | Value n => Value (- n)
  | other => other
  end.

(** [int(s)] for a [str]. *)
Definition int_of_str (s : string) : int_outcome :=
  match strip s with
  | String "+" rest => literal rest
  | String "-" rest => negate (literal rest)
  | t => literal t
  end.

(** An argument annotated [Union[int, str]]. *)
Inductive IntOrStr : Type :=
| AnInt (n : Z)
| AStr (s : string).

(** [int(x)] for such an argument; the message of an invalid literal
    shows the first 200 characters of the [repr] of the text. *)
Definition int (x : IntOrStr) : result Z :=
  match x with
  | AnInt n => Ok n
  | AStr s =>
      match int_of_str s with
      | Value n => Ok n
      | InvalidLiteral =>
          Raise (ValueError ("invalid literal for int() with base 10: "
                             ++ substring 0 200 (repr_str s)))
      | ExceedsLimit d =>
          Raise (ValueError ("Exceeds the limit (4300 digits) for integer string conversion: "
                             ++ "value has " ++ decimal (Z.of_nat d)
                             ++ " digits; use sys.set_int_max_str_digits() to increase the limit"))
      end
  end.

(** [str(x)], as an f-string shows it: the conversion of an [int] of more
    than 4300 digits raises. *)
Definition show (x : IntOrStr) : result string :=
  match x with
  | AnInt n => str_int n
  | AStr s => Ok s
  end.

End Builtins.

(* ================================================================= *)
(** * commands/validators.py: the other validators *)

Module ConfigValidator.
Import Py.
Import Builtins.

(** [ConfigValidator.is_valid_port]: a [ValueError] of [int] gives [False]. *)
Definition is_valid_port (port : IntOrStr) : bool :=
  match int port with
  | Ok port_num => ((1 <=? port_num) && (port_num <=? 65535))%Z
  | Raise _ => false
  end.

(** [ConfigValidator.is_valid_timeout] *)
Definition is_valid_timeout (timeout : IntOrStr) : bool :=
  match int timeout with
  | Ok timeout_num => ((1 <=? timeout_num) && (timeout_num <=? 300))%Z
  | Raise _ => false
  end.

End ConfigValidator.

Module InputValidator.
Import Py.
Import Builtins.
Import Re.

(** The class [[0-9a-fA-F]]. *)
Definition hex_class (c : ascii) : bool :=
  in_range "0" "9" c || in_range "a" "f" c || in_range "A" "F" c.

(** [re.compile(r'^[0-9a-fA-F]{64}$')] *)
Definition hex_pattern : list item := [Caret; Repeat hex_class 64 64; Dollar].

(** [InputValidator.is_valid_block_hash] *)
Definition is_valid_block_hash (block_hash : PyVal) : bool :=
  match block_hash with
  | PStr s => re_match hex_pattern s
  | _ => false
  end.

(** [InputValidator.is_valid_block_height] *)
Definition is_valid_block_height (height : IntOrStr) : bool :=
  match int height with
  | Ok height_num => (0 <=? height_num)%Z
  | Raise _ => false
  end.

(** The classes [[13]], [[a-km-zA-HJ-NP-Z1-9]] and [[a-z0-9]]. *)
Definition class_13 (c : ascii) : bool := Ascii.eqb c "1" || Ascii.eqb c "3".

Definition base58_class (c : ascii) : bool :=
  in_range "a" "k" c || in_range "m" "z" c || in_range "A" "H" c
  || in_range "J" "N" c || in_range "P" "Z" c || in_range "1" "9" c.

Definition bech32_class (c : ascii) : bool :=
  in_range "a" "z" c || in_range "0" "9" c.

(** The three patterns of [is_valid_bitcoin_address]. *)
Definition patterns : list (list item) :=
  [ [Caret; One class_13; Repeat base58_class 25 34; Dollar];
    [Caret; Lit "b"; Lit "c"; Lit "1"; Repeat bech32_class 39 59; Dollar];
    [Caret; Lit "t"; Lit "b"; Lit "1"; Repeat bech32_class 39 59; Dollar] ].

(** [InputValidator.is_valid_bitcoin_address] *)
Definition is_valid_bitcoin_address (address : PyVal) : bool :=
  match address with
  | PStr s => existsb (fun pattern => re_match pattern s) patterns
  | _ => false
  end.

(** [InputValidator.is_valid_transaction_id] *)
Definition is_valid_transaction_id (txid : PyVal) : bool :=
  match txid with
  | PStr s => re_match hex_pattern s
  | _ => false
  end.

(** The module-level [validate_block_hash] *)
Definition validate_block_hash (block_hash : PyVal) : result PyVal :=
  if negb (is_valid_block_hash block_hash)
  then (shown <- str block_hash ;; Raise (ValueError ("Invalid block hash: " ++ shown)))
  else Ok block_hash.

(** The module-level [validate_block_height] *)
Definition validate_block_height (height : IntOrStr) : result Z :=
  if negb (is_valid_block_height height)
  then (shown <- show height ;; Raise (ValueError ("Invalid block height: " ++ shown)))
  else int height.

(** The module-level [validate_bitcoin_address] *)
Definition validate_bitcoin_address (address : PyVal) : result PyVal :=
  if negb (is_valid_bitcoin_address address)
  then (shown <- str address ;; Raise (ValueError ("Invalid Bitcoin address: " ++ shown)))
  else Ok address.

(** The module-level [validate_transaction_id] *)
Definition validate_transaction_id (txid : PyVal) : result PyVal :=
  if negb (is_valid_transaction_id txid)
  then (shown <- str txid ;; Raise (ValueError ("Invalid transaction ID: " ++ shown)))
  else Ok txid.

End InputValidator.

(* ================================================================= *)
(** * rpc_client.py: the diagnostics of BitcoinRPCClient *)

Module Diagnostics.
Import Py.
Import RpcClient.

(** [BitcoinRPCClient.test_connection] *)
Definition test_connection (w : World) (self : BitcoinRPCClient) : list Event * result bool :=
  let (events, outcome) := call w self "getblockchaininfo" None in
  (events,
   match outcome with
   | Ok _ => Ok true
   | Raise e => Raise e
   end).

(** [BitcoinRPCClient.get_node_info]; [w1] and [w2] are the environment
    at the first and at the second call. *)
Definition get_node_info (w1 w2 : World) (self : BitcoinRPCClient) : list Event * result PyVal :=
  let (events1, outcome1) := call w1 self "getblockchaininfo" None in
  match outcome1 with
  | Raise e => (events1, Raise e)
  | Ok blockchain_info =>
      let (events2, outcome2) := call w2 self "getnetworkinfo" None in
      match outcome2 with
      | Raise e => ((events1 ++ events2)%list, Raise e)
      | Ok network_info =>
          ((events1 ++ events2)%list,
           chain <- get blockchain_info "chain" PNone ;;
           blocks <- get blockchain_info "blocks" PNone ;;
           bestblockhash <- get blockchain_info "bestblockhash" PNone ;;
           version <- get network_info "version" PNone ;;
           subversion <- get network_info "subversion" PNone ;;
           connections <- get network_info "connections" PNone ;;
           Ok (PDict [("chain", chain); ("blocks", blocks);
                      ("bestblockhash", bestblockhash); ("version", version);
                      ("subversion", subversion); ("connections", connections)]))
      end
  end.

End Diagnostics.

(* ================================================================= *)
(** * commands/blockchain.py, commands/network.py, commands/wallet.py *)

Module Commands.
Import Py.
Import Builtins.
Import RpcClient.
Import InputValidator.

(** The truth value of a [str] and of an [Optional[str]]. *)
Definition str_truthy (s : string) : bool :=
  match s with
  | EmptyString => false
  | String _ _ => true
  end.

Definition opt_truthy (o : option string) : bool :=
  match o with
  | Some s => str_truthy s
  | None => false
  end.

(** An [Optional] argument as the value handed to [call]. *)
Definition of_opt_int (o : option Z) : PyVal :=
  match o with
  | Some n => PInt n
  | None => PNone
  end.

(** ** class BlockchainCommands *)

(** [BlockchainCommands.get_block] *)
Definition get_block (w : World) (rpc_client : BitcoinRPCClient)
    (block_hash verbosity : PyVal) : list Event * result PyVal :=
  match validate_block_hash block_hash with
  | Raise e => ([], Raise e)
  | Ok validated_hash =>
      logged (shown <- str validated_hash ;; Ok ("Executing getblock for hash: " ++ shown))
        (call w rpc_client "getblock" (Some [validated_hash; verbosity]))
  end.

(** [BlockchainCommands.get_block_hash] *)
Definition get_block_hash (w : World) (rpc_client : BitcoinRPCClient)
    (height : IntOrStr) : list Event * result PyVal :=
  match validate_block_height height with
  | Raise e => ([], Raise e)
  | Ok validated_height =>
      logged (shown <- str_int validated_height ;;
              Ok ("Executing getblockhash for height: " ++ shown))
        (call w rpc_client "getblockhash" (Some [PInt validated_height]))
  end.

(** [BlockchainCommands.get_block_header] *)
Definition get_block_header (w : World) (rpc_client : BitcoinRPCClient)
    (block_hash verbose : PyVal) : list Event * result PyVal :=
  match validate_block_hash block_hash with
  | Raise e => ([], Raise e)
  | Ok validated_hash =>
      logged (shown <- str validated_hash ;; Ok ("Executing getblockheader for hash: " ++ shown))
        (call w rpc_client "getblockheader" (Some [validated_hash; verbose]))
  end.

(** ** class NetworkCommands *)

(** [NetworkCommands.disconnect_node] *)
Definition disconnect_node (w : World) (rpc_client : BitcoinRPCClient)
    (address : option string) (node_id : option Z) : list Event * result PyVal :=
  match address, node_id with
  | None, None => ([], Raise (ValueError "Either address or node_id must be specified"))
  | Some _, Some _ => ([], Raise (ValueError "Cannot specify both address and node_id"))
  | _, _ =>
      if opt_truthy address
      then call w rpc_client "disconnectnode"
             (Some [PStr (match address with Some a => a | None => "" end)])
      else logged (shown <- str (of_opt_int node_id) ;;
                   Ok ("Executing disconnectnode by id: " ++ shown))
             (call w rpc_client "disconnectnode" (Some [PStr ""; of_opt_int node_id]))
  end.

(** ** class WalletCommands *)

(** [WalletCommands.get_balance]; [w1] and [w2] are the environment at the
    first call and at the fallback. *)
Definition get_balance (w1 w2 : World) (rpc_client : BitcoinRPCClient)
    (account min_conf include_watchonly : PyVal) : list Event * result PyVal :=
  logged (shown <- str account ;; Ok ("Executing getbalance for account: " ++ shown))
    (let (events1, outcome1) := call w1 rpc_client "getbalance" None in
     match outcome1 with
     | Ok balance => (events1, Ok balance)
     | Raise _ =>
         let (events2, outcome2) :=
           call w2 rpc_client "getbalance" (Some [account; min_conf; include_watchonly]) in
         ((events1 ++ events2)%list, outcome2)
     end).

(** The [params] list that [WalletCommands.get_new_address] builds. *)
Definition get_new_address_params (label : string) (address_type : option string) : list PyVal :=
  let params := if str_truthy label then [PStr label] else [] in
  match address_type with
  | Some (String c rest) =>
      let params := match params with
                    | [] => [PStr ""]
                    | _ => params
                    end in
      (params ++ [PStr (String c rest)])%list
  | Some EmptyString | None => params
  end.

(** [WalletCommands.get_new_address] *)
Definition get_new_address (w : World) (rpc_client : BitcoinRPCClient)
    (label : string) (address_type : option string) : list Event * result PyVal :=
  let params := get_new_address_params label address_type in
  call w rpc_client "getnewaddress"
       (match params with
        | [] => None
        | _ => Some params
        end).

(** [WalletCommands.get_address_info] *)
Definition get_address_info (w : World) (rpc_client : BitcoinRPCClient)
    (address : PyVal) : list Event * result PyVal :=
  match validate_bitcoin_address address with
  | Raise e => ([], Raise e)
  | Ok validated_address =>
      logged (shown <- str validated_address ;; Ok ("Executing getaddressinfo for: " ++ shown))
        (call w rpc_client "getaddressinfo" (Some [validated_address]))
  end.

(** [WalletCommands.list_transactions]; [w1] and [w2] as in [get_balance]. *)
Definition list_transactions (w1 w2 : World) (rpc_client : BitcoinRPCClient)
    (account count skip include_watchonly : PyVal) : list Event * result PyVal :=
  logged (shown_count <- str count ;;
          shown_skip <- str skip ;;
          Ok ("Executing listtransactions, count: " ++ shown_count ++ ", skip: " ++ shown_skip))
    (let (events1, outcome1) :=
       call w1 rpc_client "listtransactions" (Some [PStr "*"; count; skip; include_watchonly]) in
     match outcome1 with
     | Ok transactions => (events1, Ok transactions)
     | Raise _ =>
         let (events2, outcome2) :=
           call w2 rpc_client "listtransactions"
                (Some [account; count; skip; include_watchonly]) in
         ((events1 ++ events2)%list, outcome2)
     end).

(** [WalletCommands.get_transaction] *)
Definition get_transaction (w : World) (rpc_client : BitcoinRPCClient)
    (txid include_watchonly : PyVal) : list Event * result PyVal :=
  match validate_transaction_id txid with
  | Raise e => ([], Raise e)
  | Ok validated_txid =>
      logged (shown <- str validated_txid ;; Ok ("Executing gettransaction for: " ++ shown))
        (call w rpc_client "gettransaction" (Some [validated_txid; include_watchonly]))
  end.

(** The list comprehension of [WalletCommands.list_unspent]. *)
Fixpoint validate_addresses (addresses : list PyVal) : result (list PyVal) :=
  match addresses with
  | [] => Ok []
  | addr :: rest =>
      validated <- validate_bitcoin_address addr ;;
      others <- validate_addresses rest ;;
      Ok (validated :: others)
  end.

(** [WalletCommands.list_unspent] *)
Definition list_unspent (w : World) (rpc_client : BitcoinRPCClient)
    (min_conf max_conf : PyVal) (addresses : option (list PyVal)) : list Event * result PyVal :=
  logged (shown_min <- str min_conf ;;
          shown_max <- str max_conf ;;
          Ok ("Executing listunspent, min_conf: " ++ shown_min ++ ", max_conf: " ++ shown_max))
    (match addresses with
     | Some (a :: others) =>
         match validate_addresses (a :: others) with
         | Raise e => ([], Raise e)
         | Ok validated_addresses =>
             call w rpc_client "listunspent" (Some [min_conf; max_conf; PList validated_addresses])
         end
     | Some [] | None => call w rpc_client "listunspent" (Some [min_conf; max_conf])
     end).

(** [WalletCommands.encrypt_wallet] *)
Definition encrypt_wallet (w : World) (rpc_client : BitcoinRPCClient)
    (passphrase : string) : list Event * result PyVal :=
  if negb (str_truthy passphrase) || (String.length passphrase <? 8)%nat
  then ([], Raise (ValueError "Passphrase must be at least 8 characters"))
  else call w rpc_client "encryptwallet" (Some [PStr passphrase]).

End Commands.

(* ================================================================= *)
(** * Notions used by the statements on the rest of the code *)

Import Re.
Import Builtins.
Import ConfigValidator.
Import InputValidator.
Import Diagnostics.
Import Commands.

(** The value of a decimal numeral read from the left, starting from [acc]. *)
Fixpoint uint_value (acc : Z) (d : Decimal.uint) : Z :=
  match d with
  | Decimal.Nil => acc
  | Decimal.D0 d' => uint_value (acc * 10) d'
  | Decimal.D1 d' => uint_value (acc * 10 + 1) d'
  | Decimal.D2 d' => uint_value (acc * 10 + 2) d'
  | Decimal.D3 d' => uint_value (acc * 10 + 3) d'
  | Decimal.D4 d' => uint_value (acc * 10 + 4) d'
  | Decimal.D5 d' => uint_value (acc * 10 + 5) d'
  | Decimal.D6 d' => uint_value (acc * 10 + 6) d'
  | Decimal.D7 d' => uint_value (acc * 10 + 7) d'
  | Decimal.D8 d' => uint_value (acc * 10 + 8) d'
  | Decimal.D9 d' => uint_value (acc * 10 + 9) d'
  end.

(** The numeral made of the digits of a text, the other characters left
    out. *)
Definition digit_uint (c : ascii) (d : Decimal.uint) : Decimal.uint :=
  match (nat_of_ascii c - 48)%nat with
  | 0%nat => Decimal.D0 d
  | 1%nat => Decimal.D1 d
  | 2%nat => Decimal.D2 d
  | 3%nat => Decimal.D3 d
  | 4%nat => Decimal.D4 d
  | 5%nat => Decimal.D5 d
  | 6%nat => Decimal.D6 d
  | 7%nat => Decimal.D7 d
  | 8%nat => Decimal.D8 d
  | _ => Decimal.D9 d
  end.

Fixpoint uint_of_digits (s : string) : Decimal.uint :=
  match s with
  | EmptyString => Decimal.Nil
  | String c rest =>
      if is_digit c then digit_uint c (uint_of_digits rest) else uint_of_digits rest
  end.

(** A text of exactly [n] characters, all of the class. *)
Definition run_of (class : ascii -> bool) (lo hi : nat) (s : string) : bool :=
  (lo <=? String.length s)%nat && (String.length s <=? hi)%nat && string_forallb class s.

(** The three shapes of address: a [1] or a [3] and 25 to 34 characters of
    the base-58 class; [prefix] and 39 to 59 lower-case letters or digits. *)
Definition legacy_address (a : string) : bool :=
  match a with
  | String c body => class_13 c && run_of base58_class 25 34 body
  | EmptyString => false
  end.

Definition segwit_address (c1 c2 c3 : ascii) (a : string) : bool :=
  match a with
  | String d1 (String d2 (String d3 body)) =>
      Ascii.eqb c1 d1 && Ascii.eqb c2 d2 && Ascii.eqb c3 d3 && run_of bech32_class 39 59 body
  | _ => false
  end.

(** The posts among the events. *)
Definition is_post (e : Event) : bool :=
  match e with
  | EvPost _ _ _ => true
  | _ => false
  end.

Definition posts (events : list Event) : list Event := filter is_post events.

Definition is_mapping (v : PyVal) : bool :=
  match v with
  | PDict _ => true
  | _ => false
  end.

(** The error [call] raises for a parameter the validator refuses. *)
Definition invalid_characters (s : string) : Exn :=
  rpc_error ("Invalid parameters: Invalid characters in parameter: " ++ s) (-32602).

(** A server that answers every request with the same JSON-RPC result. *)
Definition answering (result : PyVal) : World :=
  server (mkResponse 200 "" (Some (PDict [("result", result); ("error", PNone); ("id", PInt 1)]))).

(** A network that cannot be reached. *)
Definition unreachable : World :=
  mkWorld 1700000000000000 (fun _ _ _ _ => RaisedConnectionError "Connection refused").

Definition genesis_hash : string :=
  "000000000019d6689c085ae165831e934ff763ae46a2a6c172b3f1b60a8ce26f".

(* ================================================================= *)
(** * The texts of values *)

Lemma PyVal_nested_ind (P : PyVal -> Prop) :
  P PNone -> (forall b, P (PBool b)) -> (forall n, P (PInt n)) ->
  (forall literal, P (PFloat literal)) -> (forall s, P (PStr s)) ->
  (forall bs, P (PBytes bs)) ->
  (forall xs, Forall P xs -> P (PList xs)) ->
  (forall kvs, Forall (fun kv => P (snd kv)) kvs -> P (PDict kvs)) ->
  forall v, P v.
Proof.
  intros Hnone Hbool Hint Hfloat Hstr Hbytes Hlist Hdict.
  fix IH 1. intros [ | b | n | literal | s | bs | xs | kvs].
  - exact Hnone.
  - apply Hbool.
  - apply Hint.
  - apply Hfloat.
  - apply Hstr.
  - apply Hbytes.
  - apply Hlist. induction xs as [|x xs IHxs]; constructor; [apply IH | exact IHxs].
  - apply Hdict. induction kvs as [|[k x] kvs IHkvs]; constructor; [apply IH | exact IHkvs].
Qed.

Lemma str_int_spec (n : Z) :
  str_int n = if int_has_text n then Ok (decimal n) else Raise (ValueError int_too_long).
Proof.
  unfold str_int, int_has_text. rewrite Nat.ltb_antisym.
  now destruct (String.length (decimal (Z.abs n)) <=? max_str_digits)%nat.
Qed.

Lemma decimal_abs_length (n : Z) :
  (String.length (decimal (Z.abs n)) <= String.length (decimal n))%nat.
Proof.
  destruct n as [|p|p]; cbn [Z.abs]; try apply le_n.
  unfold decimal. cbn [Z.to_int NilZero.string_of_int String.length]. lia.
Qed.

Lemma str_int_short (n : Z) :
  (String.length (decimal n) <= max_str_digits)%nat -> str_int n = Ok (decimal n).
Proof.
  intros H. rewrite str_int_spec. unfold int_has_text.
  replace (String.length (decimal (Z.abs n)) <=? max_str_digits)%nat with true; [reflexivity|].
  symmetry. apply Nat.leb_le. pose proof (decimal_abs_length n). lia.
Qed.

(** [each] succeeds when [f] does on every element, and otherwise raises
    what [f] raises on the first element it fails on. *)
Lemma each_all {A B : Type} (f : A -> result B) (p : A -> bool) (e : Exn) (xs : list A) :
  Forall (fun x => (p x = true -> exists y, f x = Ok y) /\ (p x = false -> f x = Raise e)) xs ->
  (forallb p xs = true -> exists ys, each f xs = Ok ys) /\
  (forallb p xs = false -> each f xs = Raise e).
Proof.
  induction 1 as [|x xs [Hok Hraise] _ [IHok IHraise]]; cbn [forallb each].
  - split; [now exists [] | discriminate].
  - destruct (p x).
    + destruct (Hok eq_refl) as [y ->]. cbn [andb bind]. split.
      * intros H. destruct (IHok H) as [ys ->]. now exists (y :: ys).
      * intros H. now rewrite (IHraise H).
    + rewrite (Hraise eq_refl). split; [discriminate | reflexivity].
Qed.

(** [repr] shows exactly the values of [has_text], and raises the
    [ValueError] of the limit on the others. *)
Lemma repr_spec (v : PyVal) :
  (has_text v = true -> exists shown, repr v = Ok shown) /\
  (has_text v = false -> repr v = Raise (ValueError int_too_long)).
Proof.
  induction v as [ | b | n | literal | s | bs | xs IH | kvs IH] using PyVal_nested_ind;
    cbn [has_text repr]; try (split; [eexists; reflexivity | discriminate]).
  - destruct b; (split; [eexists; reflexivity | discriminate]).
  - rewrite str_int_spec. destruct (int_has_text n);
      (split; [intros H; try discriminate H; eexists; reflexivity
              | intros H; try discriminate H; reflexivity]).
  - destruct (each_all repr has_text (ValueError int_too_long) xs IH) as [Hok Hraise].
    split; intros H.
    + destruct (Hok H) as [parts ->]. eexists. reflexivity.
    + now rewrite (Hraise H).
  - destruct (each_all
                (fun kv : string * PyVal =>
                   match kv with
                   | (k, x) => shown <- repr x ;; Ok (repr_str k ++ ": " ++ shown)
                   end)
                (fun kv => has_text (snd kv)) (ValueError int_too_long) kvs) as [Hok Hraise].
    { clear -IH. induction IH as [|[k x] kvs [Hx Hx'] _ IHkvs]; constructor; [|exact IHkvs].
      cbn [snd] in *. split; intros H.
      - destruct (Hx H) as [shown ->]. eexists. reflexivity.
      - now rewrite (Hx' H). }
    split; intros H.
    + destruct (Hok H) as [parts ->]. eexists. reflexivity.
    + now rewrite (Hraise H).
Qed.

Lemma str_spec (v : PyVal) :
  (has_text v = true -> exists shown, str v = Ok shown) /\
  (has_text v = false -> str v = Raise (ValueError int_too_long)).
Proof.
  destruct v; try apply repr_spec.
  split; [intros _; eexists; reflexivity | discriminate].
Qed.

Lemma str_shown (v : PyVal) :
  has_text v = true -> exists shown, str v = Ok shown.
Proof. apply str_spec. Qed.

Lemma str_raises (v : PyVal) :
  has_text v = false -> str v = Raise (ValueError int_too_long).
Proof. apply str_spec. Qed.

Lemma str_raise_inv (v : PyVal) (e : Exn) :
  str v = Raise e -> has_text v = false /\ e = ValueError int_too_long.
Proof.
  intros H. destruct (has_text v) eqn:E.
  - destruct (str_shown v E) as [shown Hs]. rewrite Hs in H. discriminate H.
  - rewrite (str_raises v E) in H. inversion H. now split.
Qed.

Lemma str_ok_inv (v : PyVal) (shown : string) :
  str v = Ok shown -> has_text v = true.
Proof.
  intros H. destruct (has_text v) eqn:E; [reflexivity|].
  rewrite (str_raises v E) in H. discriminate H.
Qed.

Lemma str_of_str (s : string) : str (PStr s) = Ok s.
Proof. reflexivity. Qed.

(** The debug line of [call] can be written exactly when every parameter
    has a text. *)
Lemma str_params_spec (params : option (list PyVal)) :
  (params_have_text params = true -> exists shown, str_params params = Ok shown) /\
  (params_have_text params = false -> str_params params = Raise (ValueError int_too_long)).
Proof.
  destruct params as [ps|]; cbn [params_have_text str_params].
  - exact (str_spec (PList ps)).
  - split; [intros _; eexists; reflexivity | discriminate].
Qed.

Lemma rpc_call_line_shown (method : string) (params : option (list PyVal)) :
  params_have_text params = true -> exists line, rpc_call_line method params = Ok line.
Proof.
  intros H. unfold rpc_call_line.
  destruct (proj1 (str_params_spec params) H) as [shown ->]. eexists. reflexivity.
Qed.

Lemma rpc_call_line_raises (method : string) (params : option (list PyVal)) :
  params_have_text params = false ->
  rpc_call_line method params = Raise (ValueError int_too_long).
Proof.
  intros H. unfold rpc_call_line. now rewrite (proj2 (str_params_spec params) H).
Qed.

Lemma rpc_call_line_ok_inv (method : string) (params : option (list PyVal)) (line : string) :
  rpc_call_line method params = Ok line -> params_have_text params = true.
Proof.
  intros H. destruct (params_have_text params) eqn:E; [reflexivity|].
  rewrite (rpc_call_line_raises method params E) in H. discriminate H.
Qed.

(** ** An integer of 4301 digits *)

Lemma zeros_length (k : nat) :
  String.length (NilEmpty.string_of_uint (Nat.iter k Decimal.D0 Decimal.Nil)) = k.
Proof.
  induction k as [|k IH]; [reflexivity|].
  cbn [Nat.iter nat_rect NilEmpty.string_of_uint String.length]. now f_equal.
Qed.

Lemma one_and_zeros_nonneg (k : nat) : (0 <= one_and_zeros k)%Z.
Proof. unfold one_and_zeros. cbn [Z.of_int]. apply N2Z.is_nonneg. Qed.

Lemma one_and_zeros_decimal_length (k : nat) :
  String.length (decimal (Z.abs (one_and_zeros k))) = S k.
Proof.
  rewrite Z.abs_eq by apply one_and_zeros_nonneg.
  unfold decimal, one_and_zeros. rewrite DecimalZ.to_of.
  cbn [Decimal.norm Decimal.unorm Decimal.nzhead NilZero.string_of_int
       NilZero.string_of_uint NilEmpty.string_of_uint String.length].
  now rewrite zeros_length.
Qed.

Lemma one_and_zeros_power (k : nat) : one_and_zeros k = (10 ^ Z.of_nat k)%Z.
Proof.
  unfold one_and_zeros.
  change (Decimal.D1 (Nat.iter k Decimal.D0 Decimal.Nil))
    with (Decimal.app (Decimal.D1 Decimal.Nil) (Nat.iter k Decimal.D0 Decimal.Nil)).
  cbn [Z.of_int]. rewrite DecimalZ.of_uint_iter_D0.
  change (Z.of_uint (Decimal.D1 Decimal.Nil)) with 1%Z.
  induction k as [|k IH]; [reflexivity|].
  rewrite Nat2Z.inj_succ, Z.pow_succ_r by lia.
  cbn [Nat.iter nat_rect]. now f_equal.
Qed.

Lemma one_and_zeros_no_text : int_has_text (one_and_zeros 4300) = false.
Proof.
  unfold int_has_text. rewrite one_and_zeros_decimal_length. reflexivity.
Qed.

(* ================================================================= *)
(** * The pattern of [sanitize_rpc_param] *)

Lemma allowed_class_LF : allowed_class LF = false.
Proof. reflexivity. Qed.

Lemma at_dollar_chomp (f : string -> bool) (rest : string) :
  f "" = true ->
  at_dollar rest || nonempty (chomp rest) && f (chomp rest) = f (chomp rest).
Proof.
  intros Hf. destruct rest as [|d [|e r]]; cbn [at_dollar chomp].
  - now rewrite Hf.
  - destruct (Ascii.eqb d LF); cbn [nonempty orb andb]; [now rewrite Hf | reflexivity].
  - reflexivity.
Qed.

(** What the pattern accepts: a non-empty run of characters of the class,
    possibly followed by one final newline. *)
Lemma allowed_chars_match_spec (s : string) :
  allowed_chars_match s = nonempty (chomp s) && string_forallb allowed_class (chomp s).
Proof.
  unfold allowed_chars_match.
  induction s as [|c rest IH]; [reflexivity|].
  destruct rest as [|d rest'].
  - cbn [class_plus_dollar at_dollar chomp orb]. rewrite andb_true_r.
    destruct (Ascii.eqb c LF) eqn:E.
    + apply Ascii.eqb_eq in E. subst c. reflexivity.
    + cbn [nonempty string_forallb andb]. now rewrite andb_true_r.
  - change (chomp (String c (String d rest'))) with (String c (chomp (String d rest'))).
    change (class_plus_dollar (String c (String d rest')))
      with (allowed_class c && (at_dollar (String d rest') || class_plus_dollar (String d rest'))).
    rewrite IH.
    rewrite (at_dollar_chomp (string_forallb allowed_class)) by reflexivity.
    reflexivity.
Qed.

Lemma chomp_of_class (s : string) :
  string_forallb allowed_class s = true -> chomp s = s.
Proof.
  induction s as [|c rest IH]; [reflexivity|].
  cbn [string_forallb]. intros H. apply andb_prop in H. destruct H as [Hc Hrest].
  destruct rest as [|d rest'].
  - cbn [chomp]. destruct (Ascii.eqb c LF) eqn:E; [|reflexivity].
    apply Ascii.eqb_eq in E. subst c. discriminate.
  - change (chomp (String c (String d rest'))) with (String c (chomp (String d rest'))).
    now rewrite IH.
Qed.

Lemma allowed_chars_match_class (s : string) :
  s <> "" -> string_forallb allowed_class s = true -> allowed_chars_match s = true.
Proof.
  intros Hne Hall. rewrite allowed_chars_match_spec, (chomp_of_class s Hall), Hall.
  destruct s; [contradiction | reflexivity].
Qed.

Lemma allowed_chars_match_outside (s : string) :
  s = "" \/ string_forallb allowed_class (chomp s) = false -> allowed_chars_match s = false.
Proof.
  intros [-> | H]; [reflexivity|].
  rewrite allowed_chars_match_spec, H. apply andb_false_r.
Qed.

(** A final newline after a run of the class is let through. *)
Lemma allowed_chars_match_newline (body : string) :
  body <> "" -> string_forallb allowed_class body = true ->
  allowed_chars_match (body ++ newline) = true.
Proof.
  intros Hne Hall. rewrite allowed_chars_match_spec.
  assert (Hc : chomp (body ++ newline) = body).
  { clear Hne. induction body as [|c rest IH]; [reflexivity|].
    cbn [string_forallb] in Hall. apply andb_prop in Hall. destruct Hall as [_ Hrest].
    specialize (IH Hrest).
    destruct rest as [|d rest']; [reflexivity|].
    cbn [append] in IH |- *.
    change (chomp (String c (String d (rest' ++ newline))))
      with (String c (chomp (String d (rest' ++ newline)))).
    now rewrite IH. }
  rewrite Hc, Hall. destruct body; [contradiction | reflexivity].
Qed.

(* ================================================================= *)
(** * The loop of [validate_json_rpc_params] *)

Lemma accepted_turn (p : PyVal) (rest acc : list PyVal) :
  accepted p = true ->
  validate_loop (p :: rest) acc = validate_loop rest (acc ++ [p])%list.
Proof.
  destruct p; cbn; try reflexivity; try discriminate.
  intros ->. reflexivity.
Qed.

Lemma rejected_turn (p : PyVal) (rest acc : list PyVal) :
  accepted p = false ->
  validate_loop (p :: rest) acc = Raise (ValueError (rejection p)).
Proof.
  destruct p; cbn; try reflexivity; try discriminate.
  intros ->. reflexivity.
Qed.

Lemma validate_loop_accepted (params acc : list PyVal) :
  forallb accepted params = true ->
  validate_loop params acc = Ok (acc ++ params)%list.
Proof.
  revert acc. induction params as [|p rest IH]; intros acc H.
  - cbn. now rewrite app_nil_r.
  - cbn [forallb] in H. apply andb_prop in H. destruct H as [Hp Hrest].
    rewrite accepted_turn by exact Hp. rewrite IH by exact Hrest.
    now rewrite <- app_assoc.
Qed.

Lemma validate_loop_first_rejected (pre post acc : list PyVal) (p : PyVal) :
  forallb accepted pre = true -> accepted p = false ->
  validate_loop (pre ++ p :: post)%list acc = Raise (ValueError (rejection p)).
Proof.
  revert acc. induction pre as [|q pre IH]; intros acc Hpre Hp.
  - now apply rejected_turn.
  - cbn [forallb] in Hpre. apply andb_prop in Hpre. destruct Hpre as [Hq Hpre].
    change ((q :: pre) ++ p :: post)%list with (q :: (pre ++ p :: post))%list.
    rewrite accepted_turn by exact Hq. now apply IH.
Qed.

Lemma validate_loop_some_rejected (params acc : list PyVal) :
  forallb accepted params = false ->
  exists msg, validate_loop params acc = Raise (ValueError msg).
Proof.
  revert acc. induction params as [|p rest IH]; intros acc H; [discriminate|].
  cbn [forallb] in H. destruct (accepted p) eqn:Hp.
  - rewrite accepted_turn by exact Hp. now apply IH.
  - exists (rejection p). now apply rejected_turn.
Qed.

Lemma validate_loop_ok_inv (params acc v : list PyVal) :
  validate_loop params acc = Ok v ->
  forallb accepted params = true /\ v = (acc ++ params)%list.
Proof.
  intros H. destruct (forallb accepted params) eqn:E.
  - rewrite validate_loop_accepted in H by exact E. now inversion H.
  - destruct (validate_loop_some_rejected params acc E) as [msg Hmsg].
    rewrite Hmsg in H. discriminate.
Qed.

Lemma validate_ok_inv (params v : list PyVal) :
  validate_json_rpc_params params = Ok v ->
  forallb accepted params = true /\ v = params.
Proof. apply validate_loop_ok_inv. Qed.

Lemma passes_through_accepted (params : list PyVal) :
  forallb passes_through params = true -> forallb accepted params = true.
Proof.
  induction params as [|p rest IH]; [reflexivity|].
  cbn [forallb]. intros H. apply andb_prop in H. destruct H as [Hp Hrest].
  rewrite IH by exact Hrest. destruct p; try discriminate; reflexivity.
Qed.

Lemma unsupported_in_rejected (p : PyVal) (params : list PyVal) :
  unsupported p = true -> In p params -> forallb accepted params = false.
Proof.
  intros Hp Hin. destruct (forallb accepted params) eqn:E; [|reflexivity].
  rewrite forallb_forall in E. specialize (E p Hin).
  destruct p; discriminate.
Qed.

(* ================================================================= *)
(** * The paths through [call] *)

Lemma call_without_session (w : World) (self : BitcoinRPCClient) (method : string)
    (params : option (list PyVal)) :
  session self = None ->
  call w self method params = ([], Raise (rpc_error "RPC client not initialized" (-1))).
Proof. intros H. unfold call. now rewrite H. Qed.

Lemma call_invalid_params (w : World) (self : BitcoinRPCClient) (sess : Session)
    (method : string) (params : list PyVal) (msg : string) :
  session self = Some sess ->
  validate_json_rpc_params params = Raise (ValueError msg) ->
  call w self method (Some params) =
    ([], Raise (rpc_error ("Invalid parameters: " ++ msg) (-32602))).
Proof.
  intros Hs Hv. unfold call, validated_params. rewrite Hs.
  destruct params as [|p ps]; [discriminate|].
  cbn [truthy]. now rewrite Hv.
Qed.

Lemma call_answered (w : World) (self : BitcoinRPCClient) (method : string)
    (params params' : option (list PyVal)) (response : Response) :
  answered w self method params params' response ->
  call w self method params =
    (sent w self method params' :: fst (_handle_response response),
     except_clauses (snd (_handle_response response))).
Proof.
  intros (sess & Hs & Hv & [line Hline] & Hp). unfold call. rewrite Hs, Hv. cbv zeta.
  rewrite Hline. cbn [logged]. rewrite Hp.
  now destruct (_handle_response response).
Qed.

Lemma success_status_no_raise (response : Response) :
  success_status response -> raise_for_status response = false.
Proof.
  unfold success_status, raise_for_status. intros H.
  apply andb_false_iff. left. apply Z.leb_gt. lia.
Qed.

Lemma error_status_raise (response : Response) :
  error_status response -> raise_for_status response = true.
Proof.
  unfold error_status, raise_for_status. intros H.
  apply andb_true_iff. split; [apply Z.leb_le | apply Z.ltb_lt]; lia.
Qed.

(** Accepted parameters are sent as they are. *)
Lemma validated_params_accepted (params : list PyVal) :
  forallb accepted params = true ->
  validated_params (Some params) = Ok (Some params).
Proof.
  intros H. unfold validated_params. destruct params as [|p ps]; [reflexivity|].
  cbn [truthy]. unfold validate_json_rpc_params.
  now rewrite validate_loop_accepted by exact H.
Qed.

(** A string parameter with a character outside the class elsewhere than
    a newline in last position stops the call before the network. *)
Lemma call_refuses_outside_class (w : World) (self : BitcoinRPCClient) (sess : Session)
    (method s : string) (params : list PyVal) :
  session self = Some sess ->
  In (PStr s) params ->
  string_forallb allowed_class (chomp s) = false ->
  exists msg : string,
    call w self method (Some params)
      = ([], Raise (rpc_error ("Invalid parameters: " ++ msg) (-32602))).
Proof.
  intros Hs Hin Hout.
  assert (Hrej : forallb accepted params = false).
  { destruct (forallb accepted params) eqn:E; [|reflexivity].
    rewrite forallb_forall in E. specialize (E _ Hin). cbn [accepted] in E.
    rewrite allowed_chars_match_outside in E by (right; exact Hout). discriminate E. }
  destruct (validate_loop_some_rejected params [] Hrej) as [msg Hmsg].
  exists msg. now apply (call_invalid_params w self sess).
Qed.

(** A parameter made of a run of the class and a final newline holds a
    character outside the class, and yet goes out on the network. *)
Lemma newline_param_is_sent (w : World) (config : Config) (method body : string) :
  body <> "" -> string_forallb allowed_class body = true ->
  string_forallb allowed_class (body ++ newline) = false /\
  exists events outcome,
    call w (__init__ config) method (Some [PStr (body ++ newline)]) =
      (sent w (__init__ config) method (Some [PStr (body ++ newline)]) :: events, outcome).
Proof.
  intros Hne Hall. split.
  - clear Hne. induction body as [|c rest IH]; [reflexivity|].
    cbn [string_forallb] in Hall. apply andb_prop in Hall. destruct Hall as [Hc Hrest].
    cbn [append string_forallb]. rewrite IH by exact Hrest. apply andb_false_r.
  - unfold call. cbn [__init__ session].
    rewrite validated_params_accepted.
    + cbv zeta.
      destruct (rpc_call_line_shown method (Some [PStr (body ++ newline)]) eq_refl)
        as [line ->].
      cbn [logged].
      destruct (post w _ _ _ _);
        [destruct (_handle_response response) as [events outcome]|..];
        eexists _, _; reflexivity.
    + cbn [forallb accepted]. now rewrite allowed_chars_match_newline.
Qed.

(* ================================================================= *)
(** * The parameter validator *)

(** C1, at the input where the code departs from it.  The parameter
    ["abc" + newline] holds a character outside the allowed class, the
    newline; the pattern's [$] matches before it, so validation lets the
    parameter through and [call] posts the request and returns the
    server's result. *)
Theorem call_posts_newline_param :
  string_forallb allowed_class ("abc" ++ newline) = false /\
  call (server (mkResponse 200 "" (Some (PDict [("result", PStr "block"); ("error", PNone)]))))
       (__init__ local_config) "getblock" (Some [PStr ("abc" ++ newline)])
  = ([EvPost "http://127.0.0.1:8332"
             (mkRequest "2.0" 1700000000000000 "getblock" [PStr ("abc" ++ newline)]) 30;
      EvJson],
     Ok (PStr "block")).
Proof. split; reflexivity. Qed.

(** C2 as it is written fails on the empty string: each of its characters
    (there is none) belongs to the class, and [sanitize_rpc_param] raises. *)
Lemma sanitize_rejects_empty_string :
  ~ (forall s : string,
       sanitize_rpc_param (PStr s) = Ok (PStr s) <-> string_forallb allowed_class s = true).
Proof.
  intros H. specialize (H ""). destruct H as [_ H].
  specialize (H eq_refl). discriminate H.
Qed.

(** C2, amended.  A string parameter is returned unchanged when it is not
    empty and each of its characters belongs to the class
    [[a-zA-Z0-9]] plus [-], [_], [.], [/], [:]; it is refused, with a
    [ValueError] whose message names the parameter, when it is empty or
    holds a character outside the class elsewhere than a newline in last
    position.  [validate_json_rpc_params] returns unchanged a sequence of
    [int], [float], [bool], [None], [list] and [dict] parameters, whatever
    the lists and dicts hold. *)
Theorem sanitize_by_class :
  (forall s : string,
     s <> "" -> string_forallb allowed_class s = true ->
     sanitize_rpc_param (PStr s) = Ok (PStr s)) /\
  (forall s : string,
     s = "" \/ string_forallb allowed_class (chomp s) = false ->
     sanitize_rpc_param (PStr s) = Raise (ValueError ("Invalid characters in parameter: " ++ s))) /\
  (forall params : list PyVal,
     forallb passes_through params = true ->
     validate_json_rpc_params params = Ok params).
Proof.
  repeat split.
  - intros s Hne Hall. unfold sanitize_rpc_param.
    now rewrite allowed_chars_match_class.
  - intros s H. unfold sanitize_rpc_param.
    now rewrite allowed_chars_match_outside.
  - intros params H. unfold validate_json_rpc_params.
    rewrite validate_loop_accepted; [reflexivity|].
    now apply passes_through_accepted.
Qed.

Lemma sanitize_by_class_witness :
  sanitize_rpc_param (PStr "000000000019d6689c085ae165831e93")
    = Ok (PStr "000000000019d6689c085ae165831e93") /\
  sanitize_rpc_param (PStr "invalid;chars")
    = Raise (ValueError "Invalid characters in parameter: invalid;chars") /\
  validate_json_rpc_params [PInt 1; PFloat "0.5"; PBool true; PNone;
                            PList [PStr "invalid;chars"]; PDict [("k", PStr "a b")]]
    = Ok [PInt 1; PFloat "0.5"; PBool true; PNone;
          PList [PStr "invalid;chars"]; PDict [("k", PStr "a b")]].
Proof.
  destruct sanitize_by_class as (Haccept & Hrefuse & Hpass).
  split; [|split].
  - apply Haccept; [discriminate | reflexivity].
  - apply (Hrefuse "invalid;chars"). right. reflexivity.
  - apply Hpass. reflexivity.
Defined.

(** C8.  Validation is idempotent: when [validate_json_rpc_params params]
    succeeds with [v], validating [v] succeeds with [v] again, so that
    validating the result of a validation equals the validation. *)
Theorem validate_idempotent (params v : list PyVal) :
  validate_json_rpc_params params = Ok v ->
  validate_json_rpc_params v = Ok v /\
  (ps <- validate_json_rpc_params params ;; validate_json_rpc_params ps)
    = validate_json_rpc_params params.
Proof.
  intros H. destruct (validate_ok_inv params v H) as [Hacc ->].
  split; [exact H|]. rewrite H. exact H.
Qed.

Lemma validate_idempotent_witness :
  validate_json_rpc_params [PStr "hash123"; PInt 1] = Ok [PStr "hash123"; PInt 1] /\
  validate_json_rpc_params [PStr "hash123"; PInt 1] = Ok [PStr "hash123"; PInt 1] /\
  (ps <- validate_json_rpc_params [PStr "hash123"; PInt 1] ;; validate_json_rpc_params ps)
    = validate_json_rpc_params [PStr "hash123"; PInt 1].
Proof.
  split; [reflexivity|].
  apply (validate_idempotent [PStr "hash123"; PInt 1] [PStr "hash123"; PInt 1]).
  reflexivity.
Defined.

Lemma sanitize_long_int :
  one_and_zeros 4300 = (10 ^ 4300)%Z /\
  sanitize_rpc_param (PInt (one_and_zeros 4300)) = Raise (ValueError int_too_long).
Proof.
  split.
  - now rewrite one_and_zeros_power.
  - cbn [sanitize_rpc_param str repr]. rewrite str_int_spec, one_and_zeros_no_text.
    reflexivity.
Qed.

(** C9 as it is written fails on an integer of more than 4300 digits,
    such as ten to the power 4300: [str] raises the [ValueError] of the
    interpreter's limit on it, and [sanitize_rpc_param] raises with it. *)
Lemma sanitize_raises_on_long_int :
  ~ (forall p : PyVal,
       is_str p = false -> exists text : string, sanitize_rpc_param p = Ok (PStr text)).
Proof.
  intros H. destruct (H (PInt (one_and_zeros 4300)) eq_refl) as [text Htext].
  rewrite (proj2 sanitize_long_int) in Htext. discriminate Htext.
Qed.

(** C9, amended.  Called with an argument that is not a [str] and that
    has a text (no integer of more than 4300 digits in it),
    [sanitize_rpc_param] does not raise and does not hand the argument
    back: it returns the text [str(param)].  Called with an argument
    that has no text it raises the [ValueError] of [str].  The class is
    not checked on the text returned: the empty list gives the text of
    two brackets, which the pattern refuses when it comes as a [str]. *)
Theorem sanitize_non_string (p : PyVal) :
  is_str p = false ->
  (has_text p = true ->
   exists text : string,
     str p = Ok text /\
     sanitize_rpc_param p = Ok (PStr text) /\
     sanitize_rpc_param p <> Ok p /\
     (forall e : Exn, sanitize_rpc_param p <> Raise e)) /\
  (has_text p = false ->
   str p = Raise (ValueError int_too_long) /\
   sanitize_rpc_param p = Raise (ValueError int_too_long)) /\
  sanitize_rpc_param (PList []) = Ok (PStr "[]") /\
  sanitize_rpc_param (PStr "[]") = Raise (ValueError "Invalid characters in parameter: []").
Proof.
  intros Hp.
  assert (Hsan : sanitize_rpc_param p = (text <- str p ;; Ok (PStr text))).
  { destruct p; try discriminate Hp; reflexivity. }
  split; [|split; [|split; reflexivity]].
  - intros Htext. destruct (str_shown p Htext) as [text Hstr].
    exists text. rewrite Hsan, Hstr. cbn [bind].
    repeat split; try discriminate.
    intros E. inversion E. subst p. discriminate Hp.
  - intros Htext. rewrite Hsan, (str_raises p Htext). now split.
Qed.

Lemma sanitize_non_string_witness :
  is_str (PInt 5) = false /\ sanitize_rpc_param (PInt 5) = Ok (PStr "5").
Proof.
  split; [reflexivity|].
  destruct (proj1 (sanitize_non_string (PInt 5) eq_refl) eq_refl) as (text & Hstr & Hsan & _).
  rewrite Hsan. vm_compute in Hstr. now inversion Hstr.
Defined.

(** C10.  A parameter whose type is none of [str], [int], [float],
    [bool], [NoneType], [list], [dict] makes the validator's loop raise
    the [ValueError] that names its type as soon as the loop reaches it;
    whatever stands before it, the validation of a sequence that holds it
    raises a [ValueError], and [call] on an open session reports it as
    the invalid-parameters error, code -32602, without any event. *)
Theorem unsupported_type_is_refused (p : PyVal) :
  unsupported p = true ->
  (forall pre post : list PyVal,
     forallb accepted pre = true ->
     validate_json_rpc_params (pre ++ p :: post)%list
       = Raise (ValueError ("Unsupported parameter type: " ++ str_type p))) /\
  (forall params : list PyVal,
     In p params ->
     exists msg : string,
       validate_json_rpc_params params = Raise (ValueError msg) /\
       forall (w : World) (self : BitcoinRPCClient) (sess : Session) (method : string),
         session self = Some sess ->
         call w self method (Some params)
           = ([], Raise (rpc_error ("Invalid parameters: " ++ msg) (-32602)))).
Proof.
  intros Hp. split.
  - intros pre post Hpre. unfold validate_json_rpc_params.
    rewrite (validate_loop_first_rejected pre post [] p Hpre).
    + destruct p; try discriminate Hp. reflexivity.
    + destruct p; try discriminate Hp. reflexivity.
  - intros params Hin.
    destruct (validate_loop_some_rejected params []
                (unsupported_in_rejected p params Hp Hin)) as [msg Hmsg].
    exists msg. split; [exact Hmsg|].
    intros w self sess method Hs. now apply (call_invalid_params w self sess).
Qed.

Lemma unsupported_type_is_refused_witness :
  unsupported (PBytes [x61; x62]) = true /\
  validate_json_rpc_params [PStr "hash123"; PBytes [x61; x62]; PInt 1]
    = Raise (ValueError "Unsupported parameter type: <class 'bytes'>").
Proof.
  split; [reflexivity|].
  exact (proj1 (unsupported_type_is_refused (PBytes [x61; x62]) eq_refl)
           [PStr "hash123"] [PInt 1] eq_refl).
Defined.

(* ================================================================= *)
(** * The RPC client *)

Lemma handle_data_error_member (body error : list (string * PyVal)) :
  lookup "error" body = Some (PDict error) ->
  handle_data (PDict body)
    = Raise (RPCError (mkBitcoinRPCError (get_or error "message" (PStr "Unknown RPC error"))
                                         (get_or error "code" (PInt (-1)))
                                         (get_or error "data" PNone))).
Proof.
  intros H. unfold handle_data, contains, getitem, get, get_or, bind.
  rewrite H. reflexivity.
Qed.

Lemma handle_data_no_error (body : list (string * PyVal)) :
  absent_or_null body "error" ->
  handle_data (PDict body) = Ok (get_or body "result" PNone).
Proof.
  intros [H | H]; unfold handle_data, contains, getitem, get, get_or, bind;
    rewrite H; reflexivity.
Qed.

(** An [error] member that is neither [null] nor a mapping has no [get]:
    the [AttributeError] is reported by [call] as an unexpected error. *)
Lemma handle_data_error_not_mapping (body : list (string * PyVal)) (error : PyVal) :
  lookup "error" body = Some error ->
  is_none error = false -> (forall kvs, error <> PDict kvs) ->
  except_clauses (handle_data (PDict body))
    = Raise (rpc_error ("Unexpected error: '" ++ type_name error
                        ++ "' object has no attribute 'get'") (-1)).
Proof.
  intros H Hnone Hmap. unfold handle_data, contains, getitem, bind.
  rewrite H, Hnone. cbn [negb].
  destruct error; try discriminate Hnone; try reflexivity.
  now destruct (Hmap kvs).
Qed.

(** C3.  When the network returns a 2xx response whose decoded body is a
    mapping with an [error] member that is an error object, [call] raises
    the [BitcoinRPCError] made of that object's [message], [code] and
    [data] as they are, with the defaults ["Unknown RPC error"], [-1] and
    [None] for the missing ones; a [result] member of the body plays no
    part. *)
Theorem error_member_is_raised (w : World) (self : BitcoinRPCClient) (method : string)
    (params params' : option (list PyVal)) (response : Response)
    (body error : list (string * PyVal)) :
  answered w self method params params' response ->
  success_status response ->
  json response = Some (PDict body) ->
  lookup "error" body = Some (PDict error) ->
  call w self method params
    = ([sent w self method params'; EvJson],
       Raise (RPCError (mkBitcoinRPCError (get_or error "message" (PStr "Unknown RPC error"))
                                          (get_or error "code" (PInt (-1)))
                                          (get_or error "data" PNone)))).
Proof.
  intros Hans Hst Hjson Herr.
  rewrite (call_answered _ _ _ _ _ _ Hans).
  unfold _handle_response.
  rewrite (success_status_no_raise _ Hst), Hjson. cbn [fst snd].
  now rewrite (handle_data_error_member _ _ Herr).
Qed.

Lemma error_member_is_raised_witness :
  call (server (mkResponse 200 ""
          (Some (PDict [("result", PDict [("height", PInt 0)]);
                        ("error", PDict [("code", PInt (-5));
                                         ("message", PStr "Block not found")]);
                        ("id", PInt 1)]))))
       (__init__ local_config) "getblock" (Some [PStr "nonexistent"])
  = ([EvPost "http://127.0.0.1:8332"
             (mkRequest "2.0" 1700000000000000 "getblock" [PStr "nonexistent"]) 30;
      EvJson],
     Raise (RPCError (mkBitcoinRPCError (PStr "Block not found") (PInt (-5)) PNone))).
Proof.
  refine (error_member_is_raised
           (server (mkResponse 200 ""
              (Some (PDict [("result", PDict [("height", PInt 0)]);
                            ("error", PDict [("code", PInt (-5));
                                             ("message", PStr "Block not found")]);
                            ("id", PInt 1)]))))
           (__init__ local_config) "getblock"
           (Some [PStr "nonexistent"]) (Some [PStr "nonexistent"]) _
           [("result", PDict [("height", PInt 0)]);
            ("error", PDict [("code", PInt (-5)); ("message", PStr "Block not found")]);
            ("id", PInt 1)]
           [("code", PInt (-5)); ("message", PStr "Block not found")] _ _ _ _).
  - exists (_setup_session local_config). repeat esplit.
  - unfold success_status. cbn. lia.
  - reflexivity.
  - reflexivity.
Defined.

(** C4 as it is written fails on a status that is neither 2xx nor an
    error status: [raise_for_status] lets a 304 through, the body is
    decoded, and the error raised is the parse error, not the one of the
    status. *)
Lemma not_modified_is_decoded :
  ~ (forall (w : World) (self : BitcoinRPCClient) (method : string)
            (params params' : option (list PyVal)) (response : Response),
       answered w self method params params' response ->
       ~ success_status response ->
       call w self method params
         = ([sent w self method params'], Raise (http_error response))).
Proof.
  intros H.
  specialize (H (server (mkResponse 304 "" None)) (__init__ local_config)
                "getblockchaininfo" None None (mkResponse 304 "" None)).
  assert (Hans : answered (server (mkResponse 304 "" None)) (__init__ local_config)
                          "getblockchaininfo" None None (mkResponse 304 "" None)).
  { exists (_setup_session local_config). repeat esplit. }
  specialize (H Hans).
  assert (Hst : ~ success_status (mkResponse 304 "" None)).
  { unfold success_status. cbn. lia. }
  specialize (H Hst). discriminate H.
Qed.

(** C4, amended.  When the network returns a response with an error
    status, 400 to 599, [call] raises without decoding the body: the only
    event is the post, and the error is "Authentication failed" for 401,
    "Access forbidden" for 403, "RPC endpoint not found" for 404, and for
    any other such status the text made of the status and of the body
    text; each with the code -1, whatever the body would decode to. *)
Theorem error_status_is_mapped (w : World) (self : BitcoinRPCClient) (method : string)
    (params params' : option (list PyVal)) (response : Response) :
  answered w self method params params' response ->
  error_status response ->
  fst (call w self method params) = [sent w self method params'] /\
  (status_code response = 401%Z ->
   snd (call w self method params) = Raise (rpc_error "Authentication failed" (-1))) /\
  (status_code response = 403%Z ->
   snd (call w self method params) = Raise (rpc_error "Access forbidden" (-1))) /\
  (status_code response = 404%Z ->
   snd (call w self method params) = Raise (rpc_error "RPC endpoint not found" (-1))) /\
  (status_code response <> 401%Z -> status_code response <> 403%Z ->
   status_code response <> 404%Z ->
   snd (call w self method params)
     = Raise (rpc_error ("HTTP " ++ decimal (status_code response) ++ ": " ++ text response)
                        (-1))).
Proof.
  intros Hans Hst.
  rewrite (call_answered _ _ _ _ _ _ Hans).
  unfold _handle_response. rewrite (error_status_raise _ Hst).
  cbn [fst snd except_clauses]. unfold http_error.
  split; [reflexivity|]. repeat split.
  - intros ->. reflexivity.
  - intros ->. reflexivity.
  - intros ->. reflexivity.
  - intros H1 H3 H4.
    apply Z.eqb_neq in H1, H3, H4. rewrite H1, H3, H4. reflexivity.
Qed.

Lemma error_status_is_mapped_witness :
  call (server (mkResponse 401 "Unauthorized" None)) (__init__ local_config)
       "getblockchaininfo" None
    = ([EvPost "http://127.0.0.1:8332"
               (mkRequest "2.0" 1700000000000000 "getblockchaininfo" []) 30],
       Raise (rpc_error "Authentication failed" (-1))) /\
  snd (call (server (mkResponse 500 "Work queue depth exceeded"
                       (Some (PDict [("result", PInt 1)]))))
            (__init__ local_config) "getblockchaininfo" None)
    = Raise (rpc_error "HTTP 500: Work queue depth exceeded" (-1)).
Proof.
  split.
  - assert (Hans : answered (server (mkResponse 401 "Unauthorized" None))
                            (__init__ local_config) "getblockchaininfo" None None
                            (mkResponse 401 "Unauthorized" None)).
    { exists (_setup_session local_config). repeat esplit. }
    assert (Hst : error_status (mkResponse 401 "Unauthorized" None)).
    { unfold error_status. cbn. lia. }
    destruct (error_status_is_mapped _ _ _ _ _ _ Hans Hst) as (Hev & H401 & _).
    rewrite (surjective_pairing (call _ _ _ _)).
    rewrite Hev, (H401 eq_refl). reflexivity.
  - assert (Hans : answered (server (mkResponse 500 "Work queue depth exceeded"
                                       (Some (PDict [("result", PInt 1)]))))
                            (__init__ local_config) "getblockchaininfo" None None
                            (mkResponse 500 "Work queue depth exceeded"
                               (Some (PDict [("result", PInt 1)])))).
    { exists (_setup_session local_config). repeat esplit. }
    assert (Hst : error_status (mkResponse 500 "Work queue depth exceeded"
                                  (Some (PDict [("result", PInt 1)])))).
    { unfold error_status. cbn. lia. }
    destruct (error_status_is_mapped _ _ _ _ _ _ Hans Hst) as (_ & _ & _ & _ & Hother).
    apply Hother; cbn; lia.
Defined.

(** C5.  When the network returns a 2xx response whose decoded body is a
    mapping without an [error] member, or with a [null] one, [call]
    returns the body's [result] member, whatever its shape ([None] when
    the body has none). *)
Theorem result_member_is_returned (w : World) (self : BitcoinRPCClient) (method : string)
    (params params' : option (list PyVal)) (response : Response)
    (body : list (string * PyVal)) :
  answered w self method params params' response ->
  success_status response ->
  json response = Some (PDict body) ->
  absent_or_null body "error" ->
  call w self method params
    = ([sent w self method params'; EvJson], Ok (get_or body "result" PNone)).
Proof.
  intros Hans Hst Hjson Herr.
  rewrite (call_answered _ _ _ _ _ _ Hans).
  unfold _handle_response.
  rewrite (success_status_no_raise _ Hst), Hjson. cbn [fst snd].
  now rewrite (handle_data_no_error _ Herr).
Qed.

Lemma result_member_is_returned_witness :
  call (server (mkResponse 200 ""
          (Some (PDict [("jsonrpc", PStr "2.0"); ("id", PInt 1);
                        ("result", PDict [("chain", PStr "main"); ("blocks", PInt 100)])]))))
       (__init__ local_config) "getblockchaininfo" None
  = ([EvPost "http://127.0.0.1:8332"
             (mkRequest "2.0" 1700000000000000 "getblockchaininfo" []) 30;
      EvJson],
     Ok (PDict [("chain", PStr "main"); ("blocks", PInt 100)])).
Proof.
  refine (result_member_is_returned
           (server (mkResponse 200 ""
              (Some (PDict [("jsonrpc", PStr "2.0"); ("id", PInt 1);
                            ("result", PDict [("chain", PStr "main");
                                              ("blocks", PInt 100)])]))))
           (__init__ local_config) "getblockchaininfo" None None _
           [("jsonrpc", PStr "2.0"); ("id", PInt 1);
            ("result", PDict [("chain", PStr "main"); ("blocks", PInt 100)])] _ _ _ _).
  - exists (_setup_session local_config). repeat esplit.
  - unfold success_status. cbn. lia.
  - reflexivity.
  - left. reflexivity.
Defined.



Lemma close_times_closed (n : nat) (self : BitcoinRPCClient) :
  session self = None -> close_times n self = ([], self).
Proof.
  intros H. induction n as [|n IH]; [reflexivity|].
  cbn [close_times]. unfold close. rewrite H.
  fold (close_times n self). now rewrite IH.
Qed.

(** C7.  A constructed client has a session.  Once [close] has run the
    session is gone: every [call] raises "RPC client not initialized"
    without any event, and any number of further [close] calls does
    nothing and leaves the same client, so that closing once or many times
    ends in the same state. *)
Theorem closed_client_rejects_calls (self : BitcoinRPCClient) :
  (forall config : Config, session (__init__ config) <> None) /\
  session (snd (close self)) = None /\
  (forall (w : World) (method : string) (params : option (list PyVal)),
     call w (snd (close self)) method params
       = ([], Raise (rpc_error "RPC client not initialized" (-1)))) /\
  close (snd (close self)) = ([], snd (close self)) /\
  (forall n : nat, close_times n (snd (close self)) = ([], snd (close self))) /\
  (forall n : nat, snd (close_times (S n) self) = snd (close self)).
Proof.
  assert (Hclosed : session (snd (close self)) = None).
  { unfold close. destruct (session self) eqn:E; [reflexivity | exact E]. }
  repeat split.
  - discriminate.
  - exact Hclosed.
  - intros w method params. now apply call_without_session.
  - unfold close at 1. now rewrite Hclosed.
  - intros n. now apply close_times_closed.
  - intros n. cbn [close_times].
    destruct (close self) as [events self'] eqn:E. cbn [snd] in Hclosed.
    rewrite (close_times_closed n self' Hclosed). reflexivity.
Qed.

(* ================================================================= *)
(** * Bounded runs of a class before [$] *)

Lemma at_dollar_length (s : string) :
  at_dollar s = (String.length (chomp s) =? 0)%nat.
Proof.
  destruct s as [|c [|d r]]; cbn [at_dollar chomp]; try reflexivity.
  destruct (Ascii.eqb c LF); reflexivity.
Qed.

Lemma leb_pred (lo n : nat) : (Nat.pred lo <=? n)%nat = (lo <=? S n)%nat.
Proof. destruct lo; reflexivity. Qed.

(** [class{lo,hi}$] accepts the texts which, without a final newline, are
    [lo] to [hi] characters of the class. *)
Lemma repeat_dollar (class : ascii -> bool) (hi lo : nat) (prev : option ascii) (s : string) :
  class LF = false ->
  repeat_then class lo hi (match_here [Dollar]) prev s = run_of class lo hi (chomp s).
Proof.
  intros HLF. unfold run_of. revert lo prev s.
  induction hi as [|hi IH]; intros lo prev s.
  - cbn [repeat_then match_here]. rewrite andb_true_r, at_dollar_length.
    destruct (String.length (chomp s)) as [|n] eqn:E.
    + destruct (chomp s); [|discriminate E]. cbn.
      destruct lo; reflexivity.
    + cbn [Nat.eqb Nat.leb]. rewrite !andb_false_r. reflexivity.
  - cbn [repeat_then match_here]. rewrite andb_true_r.
    destruct s as [|c rest].
    + cbn. destruct lo; reflexivity.
    + rewrite IH. destruct rest as [|d r].
      * cbn [at_dollar chomp String.length string_forallb].
        destruct (Ascii.eqb c LF) eqn:E.
        -- apply Ascii.eqb_eq in E. subst c. rewrite HLF.
           cbn. destruct lo; reflexivity.
        -- cbn [String.length string_forallb].
           destruct lo as [|[|lo]], (class c); reflexivity.
      * change (chomp (String c (String d r))) with (String c (chomp (String d r))).
        cbn [at_dollar String.length string_forallb]. rewrite andb_false_r.
        rewrite leb_pred. cbn [orb Nat.leb].
        destruct (class c), (lo <=? S (String.length (chomp (String d r))))%nat,
          (String.length (chomp (String d r)) <=? hi)%nat; reflexivity.
Qed.

Lemma chomp_cons (c d : ascii) (r : string) :
  chomp (String c (String d r)) = String c (chomp (String d r)).
Proof. reflexivity. Qed.

Lemma run_of_short (class : ascii -> bool) (lo hi : nat) (s : string) :
  (String.length s < lo)%nat -> run_of class lo hi s = false.
Proof.
  intros H. unfold run_of.
  replace (lo <=? String.length s)%nat with false; [reflexivity|].
  symmetry. apply Nat.leb_gt. exact H.
Qed.

Lemma hex_class_LF : hex_class LF = false.
Proof. reflexivity. Qed.

Lemma base58_class_LF : base58_class LF = false.
Proof. reflexivity. Qed.

Lemma bech32_class_LF : bech32_class LF = false.
Proof. reflexivity. Qed.

Lemma match_here_caret (items : list item) (s : string) :
  match_here (Caret :: items) None s = match_here items None s.
Proof. reflexivity. Qed.

Lemma match_here_repeat (class : ascii -> bool) (lo hi : nat) (items : list item)
    (prev : option ascii) (s : string) :
  match_here (Repeat class lo hi :: items) prev s
  = repeat_then class lo hi (match_here items) prev s.
Proof. reflexivity. Qed.

Lemma match_here_lit (c : ascii) (items : list item) (prev : option ascii) (s : string) :
  match_here (Lit c :: items) prev s
  = match s with
    | String d rest => Ascii.eqb c d && match_here items (Some d) rest
    | EmptyString => false
    end.
Proof. reflexivity. Qed.

Lemma repeat_one (class : ascii -> bool) (k : option ascii -> string -> bool)
    (prev : option ascii) (s : string) :
  repeat_then class 1 1 k prev s
  = match s with
    | String c rest => class c && k (Some c) rest
    | EmptyString => false
    end.
Proof.
  destruct s as [|c rest]; [reflexivity|].
  cbn [repeat_then Nat.eqb andb orb Nat.pred].
  destruct (class c); [|reflexivity]. cbn [andb].
  destruct rest; now rewrite orb_false_r.
Qed.

Lemma hex_pattern_spec (s : string) :
  re_match hex_pattern s = run_of hex_class 64 64 (chomp s).
Proof.
  unfold re_match, hex_pattern. rewrite match_here_caret, match_here_repeat.
  apply repeat_dollar. exact hex_class_LF.
Qed.

Lemma legacy_pattern_spec (s : string) :
  re_match [Caret; One class_13; Repeat base58_class 25 34; Dollar] s
  = legacy_address (chomp s).
Proof.
  unfold re_match, One.
  rewrite match_here_caret, match_here_repeat, repeat_one.
  assert (Hshort : forall t, (String.length t < 25)%nat -> run_of base58_class 25 34 t = false)
    by (intros t Ht; now apply run_of_short).
  destruct s as [|c rest]; [reflexivity|].
  rewrite match_here_repeat, repeat_dollar by exact base58_class_LF.
  unfold legacy_address.
  destruct rest as [|d r].
  - cbn [chomp]. rewrite (Hshort "") by (cbn; lia).
    rewrite andb_false_r. destruct (Ascii.eqb c LF); [reflexivity|].
    rewrite (Hshort "") by (cbn; lia). now rewrite andb_false_r.
  - now rewrite chomp_cons.
Qed.

Lemma segwit_pattern_spec (c1 c2 c3 : ascii) (s : string) :
  re_match [Caret; Lit c1; Lit c2; Lit c3; Repeat bech32_class 39 59; Dollar] s
  = segwit_address c1 c2 c3 (chomp s).
Proof.
  unfold re_match. rewrite match_here_caret, match_here_lit.
  assert (Hshort : run_of bech32_class 39 59 "" = false)
    by (apply run_of_short; cbn; lia).
  destruct s as [|d1 [|d2 [|d3 [|d4 r]]]].
  - reflexivity.
  - rewrite match_here_lit. cbn [chomp]. rewrite andb_false_r.
    destruct (Ascii.eqb d1 LF); reflexivity.
  - rewrite !match_here_lit. rewrite chomp_cons. cbn [chomp]. rewrite !andb_false_r.
    destruct (Ascii.eqb d2 LF); reflexivity.
  - rewrite !match_here_lit, match_here_repeat.
    rewrite repeat_dollar by exact bech32_class_LF.
    rewrite !chomp_cons. cbn [chomp]. rewrite Hshort, !andb_false_r.
    destruct (Ascii.eqb d3 LF); cbn [segwit_address]; [reflexivity|].
    rewrite Hshort. now rewrite !andb_false_r.
  - rewrite !match_here_lit, match_here_repeat.
    rewrite repeat_dollar by exact bech32_class_LF.
    rewrite !chomp_cons. cbn [segwit_address].
    now rewrite !andb_assoc.
Qed.

(** Texts of a class inside the allowed class pass the pattern of
    [sanitize_rpc_param]. *)
Lemma run_allowed (class : ascii -> bool) (s : string) :
  (forall c, class c = true -> allowed_class c = true) ->
  string_forallb class s = true -> string_forallb allowed_class s = true.
Proof.
  intros Hsub. induction s as [|c rest IH]; [reflexivity|].
  cbn [string_forallb]. intros H. apply andb_prop in H. destruct H as [Hc Hrest].
  now rewrite (Hsub c Hc), IH.
Qed.

Lemma in_range_bounds (lo hi c : ascii) :
  in_range lo hi c = true ->
  (nat_of_ascii lo <= nat_of_ascii c <= nat_of_ascii hi)%nat.
Proof.
  unfold in_range. intros H. apply andb_prop in H. destruct H as [H1 H2].
  apply Nat.leb_le in H1, H2. lia.
Qed.

Lemma in_range_sub (lo hi lo' hi' c : ascii) :
  (nat_of_ascii lo' <= nat_of_ascii lo)%nat ->
  (nat_of_ascii hi <= nat_of_ascii hi')%nat ->
  in_range lo hi c = true -> in_range lo' hi' c = true.
Proof.
  intros Hlo Hhi H. apply in_range_bounds in H. unfold in_range.
  apply andb_true_intro. split; apply Nat.leb_le; lia.
Qed.

Lemma allowed_upper (c : ascii) : in_range "A" "Z" c = true -> allowed_class c = true.
Proof. intros H. unfold allowed_class. rewrite H. now rewrite orb_true_r. Qed.

Lemma allowed_lower (c : ascii) : in_range "a" "z" c = true -> allowed_class c = true.
Proof. intros H. unfold allowed_class. now rewrite H. Qed.

Lemma allowed_digit (c : ascii) : in_range "0" "9" c = true -> allowed_class c = true.
Proof. intros H. unfold allowed_class. rewrite H. now rewrite !orb_true_r. Qed.

Lemma hex_allowed (c : ascii) : hex_class c = true -> allowed_class c = true.
Proof.
  unfold hex_class. intros H.
  apply orb_prop in H. destruct H as [H | H]; [apply orb_prop in H; destruct H as [H | H]|].
  - now apply allowed_digit.
  - apply allowed_lower. revert H. apply in_range_sub; cbn; lia.
  - apply allowed_upper. revert H. apply in_range_sub; cbn; lia.
Qed.

Lemma base58_allowed (c : ascii) : base58_class c = true -> allowed_class c = true.
Proof.
  unfold base58_class. intros H.
  repeat (apply orb_prop in H; destruct H as [H | H]).
  - apply allowed_lower. revert H. apply in_range_sub; cbn; lia.
  - apply allowed_lower. revert H. apply in_range_sub; cbn; lia.
  - apply allowed_upper. revert H. apply in_range_sub; cbn; lia.
  - apply allowed_upper. revert H. apply in_range_sub; cbn; lia.
  - apply allowed_upper. revert H. apply in_range_sub; cbn; lia.
  - apply allowed_digit. revert H. apply in_range_sub; cbn; lia.
Qed.

Lemma bech32_allowed (c : ascii) : bech32_class c = true -> allowed_class c = true.
Proof.
  unfold bech32_class. intros H. apply orb_prop in H. destruct H as [H | H].
  - now apply allowed_lower.
  - now apply allowed_digit.
Qed.

Lemma run_of_allowed (class : ascii -> bool) (lo hi : nat) (s : string) :
  (forall c, class c = true -> allowed_class c = true) ->
  run_of class lo hi s = true -> string_forallb allowed_class s = true.
Proof.
  intros Hsub H. unfold run_of in H. apply andb_prop in H. destruct H as [_ H].
  now apply (run_allowed class).
Qed.

Lemma run_of_nonempty (class : ascii -> bool) (lo hi : nat) (s : string) :
  (1 <= lo)%nat -> run_of class lo hi s = true -> nonempty s = true.
Proof.
  intros Hlo H. destruct s; [|reflexivity].
  rewrite run_of_short in H by (cbn; lia). discriminate H.
Qed.

Lemma valid_hash_allowed (s : string) :
  is_valid_block_hash (PStr s) = true -> allowed_chars_match s = true.
Proof.
  cbn [is_valid_block_hash]. rewrite hex_pattern_spec, allowed_chars_match_spec.
  intros H.
  rewrite (run_of_nonempty hex_class 64 64 (chomp s)) by (try lia; exact H).
  now rewrite (run_of_allowed hex_class 64 64 (chomp s) hex_allowed H).
Qed.

(* ================================================================= *)
(** * [int] of the decimal text of an integer *)

Lemma uint_value_acc (d : Decimal.uint) (acc : positive) :
  uint_value (Zpos acc) d = Zpos (Pos.of_uint_acc d acc).
Proof.
  revert acc. induction d as [|d IH|d IH|d IH|d IH|d IH|d IH|d IH|d IH|d IH|d IH];
    intros acc; cbn [uint_value Pos.of_uint_acc]; try reflexivity;
    match goal with
    | |- uint_value ?z d = Zpos (Pos.of_uint_acc d ?p) =>
        replace z with (Zpos p) by lia; apply IH
    end.
Qed.

Lemma uint_value_of_uint (d : Decimal.uint) :
  uint_value 0 d = Z.of_N (Pos.of_uint d).
Proof.
  induction d as [|d IH|d IH|d IH|d IH|d IH|d IH|d IH|d IH|d IH|d IH];
    cbn [uint_value Pos.of_uint Z.mul Z.add]; try reflexivity; try exact IH;
    apply uint_value_acc.
Qed.

Lemma digits_of_uint (d : Decimal.uint) (acc : Z) (after_digit : bool) :
  d <> Decimal.Nil \/ after_digit = true ->
  digits acc after_digit (NilEmpty.string_of_uint d) = Some (uint_value acc d).
Proof.
  revert acc after_digit.
  induction d as [|d IH|d IH|d IH|d IH|d IH|d IH|d IH|d IH|d IH|d IH];
    intros acc after_digit H;
    [ destruct H as [H | ->]; [contradiction | reflexivity] | .. ];
    cbn [NilEmpty.string_of_uint digits uint_value];
    match goal with
    | |- (if is_digit ?c then _ else _) = _ =>
        change (is_digit c) with true; cbv iota;
        match goal with
        | |- digits ?z true _ = Some (uint_value ?z' d) =>
            replace z with z' by (unfold digit_value; simpl; lia); apply IH; now right
        end
    end.
Qed.

Lemma no_space_lstrip (s : string) :
  string_forallb (fun c => negb (is_space c)) s = true -> lstrip s = s.
Proof.
  destruct s as [|c rest]; [reflexivity|].
  cbn [string_forallb lstrip]. intros H. apply andb_prop in H. destruct H as [Hc _].
  now destruct (is_space c).
Qed.

Lemma no_space_rstrip (s : string) :
  string_forallb (fun c => negb (is_space c)) s = true -> rstrip s = s.
Proof.
  induction s as [|c rest IH]; [reflexivity|].
  cbn [string_forallb rstrip]. intros H. apply andb_prop in H. destruct H as [Hc Hrest].
  rewrite IH by exact Hrest.
  destruct rest; [|reflexivity]. now destruct (is_space c).
Qed.

Lemma no_space_strip (s : string) :
  string_forallb (fun c => negb (is_space c)) s = true -> strip s = s.
Proof.
  intros H. unfold strip. rewrite (no_space_lstrip s H). now apply no_space_rstrip.
Qed.

Lemma no_space_in_uint (d : Decimal.uint) :
  string_forallb (fun c => negb (is_space c)) (NilEmpty.string_of_uint d) = true.
Proof.
  induction d; cbn [NilEmpty.string_of_uint string_forallb]; try reflexivity;
    rewrite IHd; reflexivity.
Qed.

Lemma span_numeral (p : ascii -> bool) (d : Decimal.uint) :
  (forall c, is_digit c = true -> p c = true) ->
  span p (NilEmpty.string_of_uint d) = (NilEmpty.string_of_uint d, "").
Proof.
  intros Hp.
  induction d; cbn [NilEmpty.string_of_uint span]; try reflexivity;
    rewrite Hp by reflexivity; now rewrite IHd.
Qed.

Lemma count_digits_length (s : string) : (count_digits s <= String.length s)%nat.
Proof.
  induction s as [|c rest IH]; [apply le_n|].
  cbn [count_digits String.length]. destruct (is_digit c); lia.
Qed.

Lemma literal_numeral (d : Decimal.uint) :
  d <> Decimal.Nil ->
  (String.length (NilEmpty.string_of_uint d) <= max_str_digits)%nat ->
  literal (NilEmpty.string_of_uint d) = Value (uint_value 0 d).
Proof.
  intros Hd Hlen. unfold literal.
  rewrite (span_numeral _ d) by (intros c Hc; now rewrite Hc).
  rewrite (digits_of_uint d 0 false (or_introl Hd)).
  replace (max_str_digits <? count_digits (NilEmpty.string_of_uint d))%nat with false;
    [reflexivity|].
  symmetry. apply Nat.ltb_ge.
  pose proof (count_digits_length (NilEmpty.string_of_uint d)). lia.
Qed.

Lemma int_of_numeral (d : Decimal.uint) :
  d <> Decimal.Nil ->
  (String.length (NilEmpty.string_of_uint d) <= max_str_digits)%nat ->
  int_of_str (NilEmpty.string_of_uint d) = Value (uint_value 0 d) /\
  int_of_str (String "-" (NilEmpty.string_of_uint d)) = Value (- uint_value 0 d)%Z.
Proof.
  intros Hd Hlen. split.
  - unfold int_of_str. rewrite (no_space_strip _ (no_space_in_uint d)).
    rewrite <- (literal_numeral d Hd Hlen).
    destruct d; [contradiction | reflexivity ..].
  - unfold int_of_str. rewrite no_space_strip.
    + now rewrite (literal_numeral d Hd Hlen).
    + cbn [string_forallb]. now rewrite no_space_in_uint.
Qed.

(** [int] reads back the decimal text of an integer, within the limit on
    the length of the text. *)
Lemma int_of_str_decimal (n : Z) :
  (String.length (decimal n) <= max_str_digits)%nat -> int_of_str (decimal n) = Value n.
Proof.
  unfold decimal. destruct n as [|p|p]; [reflexivity| |].
  - cbn [Z.to_int NilZero.string_of_int]. unfold NilZero.string_of_uint.
    pose proof (DecimalPos.Unsigned.to_uint_nonnil p) as Hnil.
    destruct (Pos.to_uint p) eqn:E; [contradiction|..]; intros Hlen;
      rewrite <- E in *;
      destruct (int_of_numeral (Pos.to_uint p) Hnil Hlen) as [H _];
      rewrite H, uint_value_of_uint, DecimalPos.Unsigned.of_to; reflexivity.
  - cbn [Z.to_int NilZero.string_of_int]. unfold NilZero.string_of_uint.
    pose proof (DecimalPos.Unsigned.to_uint_nonnil p) as Hnil.
    destruct (Pos.to_uint p) eqn:E; [contradiction|..]; intros Hlen;
      rewrite <- E in *; cbn [String.length] in Hlen;
      destruct (int_of_numeral (Pos.to_uint p) Hnil ltac:(lia)) as [_ H];
      rewrite H, uint_value_of_uint, DecimalPos.Unsigned.of_to; reflexivity.
Qed.

Lemma int_of_text (n : Z) :
  (String.length (decimal n) <= max_str_digits)%nat -> int (AStr (decimal n)) = Ok n.
Proof. intros H. unfold int. now rewrite int_of_str_decimal. Qed.

Lemma show_int (n : Z) :
  (String.length (decimal n) <= max_str_digits)%nat -> show (AnInt n) = Ok (decimal n).
Proof. apply str_int_short. Qed.

Lemma digit_uint_value (c : ascii) (d : Decimal.uint) (acc : Z) :
  is_digit c = true ->
  uint_value acc (digit_uint c d) = uint_value (acc * 10 + digit_value c) d.
Proof.
  intros H. apply in_range_bounds in H. change (nat_of_ascii "0") with 48%nat in H.
  change (nat_of_ascii "9") with 57%nat in H.
  unfold digit_uint, digit_value.
  destruct (nat_of_ascii c - 48)%nat as [|[|[|[|[|[|[|[|[|[|k]]]]]]]]]] eqn:E;
    cbn [uint_value]; try (f_equal; lia).
Qed.

Lemma digit_uint_nb_digits (c : ascii) (d : Decimal.uint) :
  Decimal.nb_digits (digit_uint c d) = S (Decimal.nb_digits d).
Proof.
  unfold digit_uint.
  now destruct (nat_of_ascii c - 48)%nat as [|[|[|[|[|[|[|[|[|k]]]]]]]]].
Qed.

Lemma digit_uint_nonnil (c : ascii) (d : Decimal.uint) : digit_uint c d <> Decimal.Nil.
Proof.
  unfold digit_uint.
  now destruct (nat_of_ascii c - 48)%nat as [|[|[|[|[|[|[|[|[|k]]]]]]]]].
Qed.

(** What [digits] reads is the value of the numeral made of the digits of
    the text, which are as many as [count_digits] counts. *)
Lemma digits_uint (s : string) (acc : Z) (after_digit : bool) (m : Z) :
  digits acc after_digit s = Some m ->
  m = uint_value acc (uint_of_digits s) /\
  Decimal.nb_digits (uint_of_digits s) = count_digits s /\
  (after_digit = false -> uint_of_digits s <> Decimal.Nil).
Proof.
  revert acc after_digit. induction s as [|c rest IH]; intros acc after_digit H.
  - cbn [digits] in H. destruct after_digit; [|discriminate H].
    inversion H. repeat split. discriminate.
  - cbn [digits uint_of_digits count_digits] in *. destruct (is_digit c) eqn:Hc.
    + destruct (IH _ _ H) as (Hm & Hn & _).
      rewrite digit_uint_value by exact Hc. rewrite digit_uint_nb_digits, Hn.
      repeat split; [exact Hm|]. intros _. apply digit_uint_nonnil.
    + destruct (Ascii.eqb c "_" && after_digit) eqn:Hu; [|discriminate H].
      apply andb_prop in Hu. destruct Hu as [_ ->].
      destruct (IH _ _ H) as (Hm & Hn & Hnil).
      repeat split; [exact Hm | exact Hn | discriminate].
Qed.

Lemma string_of_uint_length (d : Decimal.uint) :
  String.length (NilEmpty.string_of_uint d) = Decimal.nb_digits d.
Proof.
  induction d; cbn [NilEmpty.string_of_uint String.length Decimal.nb_digits];
    try reflexivity; now f_equal.
Qed.

Lemma unorm_nonnil (d : Decimal.uint) : Decimal.unorm d <> Decimal.Nil.
Proof. unfold Decimal.unorm. now destruct (Decimal.nzhead d). Qed.

Lemma decimal_of_uint_length (d : Decimal.uint) :
  d <> Decimal.Nil ->
  (String.length (decimal (Z.of_N (Pos.of_uint d))) <= Decimal.nb_digits d)%nat.
Proof.
  intros Hd. unfold decimal.
  replace (Z.to_int (Z.of_N (Pos.of_uint d)))
    with (Decimal.Pos (N.to_uint (Pos.of_uint d)))
    by now destruct (Pos.of_uint d).
  rewrite DecimalPos.Unsigned.to_of. cbn [NilZero.string_of_int].
  pose proof (unorm_nonnil d) as Hnil. unfold NilZero.string_of_uint.
  destruct (Decimal.unorm d) eqn:E; [contradiction|..]; rewrite <- E;
    rewrite string_of_uint_length; now apply DecimalFacts.nb_digits_unorm.
Qed.

Lemma literal_has_text (body : string) (m : Z) :
  literal body = Value m -> (0 <= m)%Z /\ int_has_text m = true.
Proof.
  unfold literal. destruct (span _ body) as [run after].
  destruct (digits 0 false run) as [v|] eqn:Hd; [|discriminate].
  destruct (max_str_digits <? count_digits run)%nat eqn:Hlimit; [discriminate|].
  destruct after; [|discriminate]. intros H. inversion H. subst v.
  destruct (digits_uint run 0 false m Hd) as (Hm & Hn & Hnil).
  rewrite uint_value_of_uint in Hm. specialize (Hnil eq_refl).
  assert (Hpos : (0 <= m)%Z) by (rewrite Hm; apply N2Z.is_nonneg).
  split; [exact Hpos|]. unfold int_has_text. rewrite Z.abs_eq by exact Hpos.
  apply Nat.leb_le. apply Nat.ltb_ge in Hlimit.
  pose proof (decimal_of_uint_length _ Hnil) as Hlen. rewrite <- Hm, Hn in Hlen. lia.
Qed.

Lemma int_has_text_opp (m : Z) : int_has_text (- m) = int_has_text m.
Proof. unfold int_has_text. now rewrite Z.abs_opp. Qed.

(** An integer read from a text is within the limit on digits both ways:
    [int] made it from at most 4300 digits, so [str] shows it. *)
Lemma int_of_str_has_text (s : string) (n : Z) :
  int_of_str s = Value n -> int_has_text n = true.
Proof.
  unfold int_of_str.
  assert (Hlit : forall body, literal body = Value n -> int_has_text n = true)
    by (intros body H; now apply (literal_has_text body)).
  assert (Hneg : forall body, negate (literal body) = Value n -> int_has_text n = true).
  { intros body H. destruct (literal body) as [m| |k] eqn:E; try discriminate H.
    cbn [negate] in H. inversion H. rewrite int_has_text_opp.
    now apply (literal_has_text body). }
  destruct (strip s) as [|c rest]; [apply Hlit|].
  destruct c as [[] [] [] [] [] [] [] []]; try apply Hlit. apply Hneg.
Qed.

(* ================================================================= *)
(** * The validators of hashes, addresses, heights and ports *)

Lemma run_of_iff (class : ascii -> bool) (lo hi : nat) (s : string) :
  run_of class lo hi s = true <->
  (lo <= String.length s <= hi)%nat /\ string_forallb class s = true.
Proof.
  unfold run_of. rewrite !andb_true_iff, !Nat.leb_le. tauto.
Qed.

(** X1.  [is_valid_block_hash] accepts the strings which, apart from one
    final newline that may follow, are made of exactly 64 hexadecimal
    digits, and nothing else; [is_valid_transaction_id] accepts the same
    values. *)
Theorem block_hash_shape (v : PyVal) :
  (is_valid_block_hash v = true <->
   exists s : string,
     v = PStr s /\ String.length (chomp s) = 64%nat /\
     string_forallb hex_class (chomp s) = true) /\
  is_valid_transaction_id v = is_valid_block_hash v.
Proof.
  split; [|reflexivity]. split.
  - destruct v; try discriminate. cbn [is_valid_block_hash].
    rewrite hex_pattern_spec, run_of_iff. intros [Hlen Hall].
    exists s. repeat split; [lia | exact Hall].
  - intros (s & -> & Hlen & Hall). cbn [is_valid_block_hash].
    rewrite hex_pattern_spec, run_of_iff. split; [lia | exact Hall].
Qed.

Lemma address_patterns_spec (s : string) :
  is_valid_bitcoin_address (PStr s)
  = legacy_address (chomp s) || segwit_address "b" "c" "1" (chomp s)
    || segwit_address "t" "b" "1" (chomp s).
Proof.
  cbn [is_valid_bitcoin_address patterns existsb].
  rewrite legacy_pattern_spec, !segwit_pattern_spec.
  now rewrite orb_false_r, orb_assoc.
Qed.

Lemma legacy_address_facts (a : string) :
  legacy_address a = true ->
  (26 <= String.length a <= 35)%nat /\ string_forallb allowed_class a = true.
Proof.
  destruct a as [|c body]; [discriminate|]. cbn [legacy_address].
  intros H. apply andb_prop in H. destruct H as [Hc Hbody].
  pose proof (run_of_allowed _ _ _ _ base58_allowed Hbody) as Hall.
  apply run_of_iff in Hbody. destruct Hbody as [Hlen _].
  split; [cbn [String.length]; lia|].
  cbn [string_forallb]. rewrite Hall, andb_true_r.
  apply allowed_digit. unfold class_13 in Hc.
  apply orb_prop in Hc. destruct Hc as [Hc | Hc];
    apply Ascii.eqb_eq in Hc; subst c; reflexivity.
Qed.

Lemma segwit_address_facts (c1 c2 c3 : ascii) (a : string) :
  allowed_class c1 = true -> allowed_class c2 = true -> allowed_class c3 = true ->
  segwit_address c1 c2 c3 a = true ->
  (42 <= String.length a <= 62)%nat /\ string_forallb allowed_class a = true.
Proof.
  intros H1 H2 H3. destruct a as [|d1 [|d2 [|d3 body]]]; try discriminate.
  cbn [segwit_address]. intros H.
  apply andb_prop in H. destruct H as [H Hbody].
  apply andb_prop in H. destruct H as [H E3].
  apply andb_prop in H. destruct H as [E1 E2].
  apply Ascii.eqb_eq in E1, E2, E3. subst d1 d2 d3.
  pose proof (run_of_allowed _ _ _ _ bech32_allowed Hbody) as Hall.
  apply run_of_iff in Hbody. destruct Hbody as [Hlen _].
  split; [cbn [String.length]; lia|].
  cbn [string_forallb]. now rewrite H1, H2, H3, Hall.
Qed.

Lemma valid_address_facts (s : string) :
  is_valid_bitcoin_address (PStr s) = true ->
  ((26 <= String.length (chomp s) <= 35)%nat \/ (42 <= String.length (chomp s) <= 62)%nat) /\
  string_forallb allowed_class (chomp s) = true.
Proof.
  rewrite address_patterns_spec. intros H.
  apply orb_prop in H. destruct H as [H | H]; [apply orb_prop in H; destruct H as [H | H]|].
  - destruct (legacy_address_facts _ H). auto.
  - destruct (segwit_address_facts "b" "c" "1" _ eq_refl eq_refl eq_refl H). auto.
  - destruct (segwit_address_facts "t" "b" "1" _ eq_refl eq_refl eq_refl H). auto.
Qed.

Lemma valid_address_allowed (s : string) :
  is_valid_bitcoin_address (PStr s) = true -> allowed_chars_match s = true.
Proof.
  intros H. destruct (valid_address_facts s H) as [Hlen Hall].
  rewrite allowed_chars_match_spec, Hall.
  destruct (chomp s); [cbn in Hlen; lia | reflexivity].
Qed.

(** X2.  [is_valid_bitcoin_address] accepts exactly the strings which,
    apart from one final newline that may follow, have one of three
    shapes: a [1] or a [3] and 25 to 34 characters of the base-58 class
    (no [0], [O], [I], [l]); [bc1] and 39 to 59 lower-case letters or
    digits; [tb1] and the same.  An accepted address is therefore 26 to 35
    or 42 to 62 characters long and made of letters and digits only. *)
Theorem bitcoin_address_shape (v : PyVal) :
  (is_valid_bitcoin_address v = true <->
   exists s : string,
     v = PStr s /\
     (legacy_address (chomp s) = true \/
      segwit_address "b" "c" "1" (chomp s) = true \/
      segwit_address "t" "b" "1" (chomp s) = true)) /\
  (forall s : string,
     is_valid_bitcoin_address (PStr s) = true ->
     ((26 <= String.length (chomp s) <= 35)%nat \/
      (42 <= String.length (chomp s) <= 62)%nat) /\
     string_forallb allowed_class (chomp s) = true).
Proof.
  split; [|exact valid_address_facts]. split.
  - destruct v; try discriminate. rewrite address_patterns_spec.
    intros H. exists s. split; [reflexivity|].
    apply orb_prop in H. destruct H as [H | H]; [apply orb_prop in H; destruct H as [H | H]|];
      auto.
  - intros (s & -> & H). rewrite address_patterns_spec.
    destruct H as [-> | [-> | ->]]; now rewrite ?orb_true_r.
Qed.

Lemma validate_block_height_int (height : IntOrStr) (n : Z) :
  int height = Ok n ->
  validate_block_height height
  = if (0 <=? n)%Z then Ok n
    else (shown <- show height ;; Raise (ValueError ("Invalid block height: " ++ shown))).
Proof.
  intros H. unfold validate_block_height, is_valid_block_height. rewrite H.
  now destruct (0 <=? n)%Z.
Qed.

Lemma validate_block_height_ok (height : IntOrStr) (n : Z) :
  validate_block_height height = Ok n -> (0 <= n)%Z /\ int height = Ok n.
Proof.
  unfold validate_block_height, is_valid_block_height. intros H.
  destruct (int height) as [m|e].
  - destruct (0 <=? m)%Z eqn:E; cbn [negb] in H.
    + inversion H. subst m. split; [now apply Z.leb_le | reflexivity].
    + destruct (show height); discriminate H.
  - cbn [negb] in H. destruct (show height); discriminate H.
Qed.

Lemma validate_block_height_raise (height : IntOrStr) (e : Exn) :
  validate_block_height height = Raise e ->
  exists msg : string,
    e = ValueError msg /\
    forall shown : string,
      show height = Ok shown -> msg = "Invalid block height: " ++ shown.
Proof.
  assert (Hshow : forall e',
    (shown <- show height ;; Raise (ValueError ("Invalid block height: " ++ shown))
     : result Z)
    = Raise e' ->
    exists msg : string,
      e' = ValueError msg /\
      forall shown : string,
        show height = Ok shown -> msg = "Invalid block height: " ++ shown).
  { intros e'. unfold show. destruct height as [n|s].
    - rewrite str_int_spec. destruct (int_has_text n); cbn [bind];
        intros H; inversion H; eexists; split; try reflexivity.
      + intros shown Hs. now inversion Hs.
      + intros shown Hs. discriminate Hs.
    - cbn [bind]. intros H. inversion H. eexists. split; [reflexivity|].
      intros shown Hs. now inversion Hs. }
  unfold validate_block_height, is_valid_block_height. intros H.
  destruct (int height) as [m|e'] eqn:Hint.
  - destruct (0 <=? m)%Z; cbn [negb] in H; [discriminate H | now apply Hshow].
  - cbn [negb] in H. now apply Hshow.
Qed.

(** X3.  [validate_block_height] returns only non-negative integers, and
    raises nothing but [ValueError]; when the argument can be shown, the
    message is "Invalid block height: " followed by the argument.  On an
    integer, or on the decimal text of an integer (within the limit of
    4300 characters on such texts), it returns the integer when it is not
    negative and raises otherwise. *)
Theorem validate_block_height_result (height : IntOrStr) :
  (forall n : Z, validate_block_height height = Ok n -> (0 <= n)%Z /\ int height = Ok n) /\
  (forall e : Exn,
     validate_block_height height = Raise e ->
     exists msg : string,
       e = ValueError msg /\
       forall shown : string,
         show height = Ok shown -> msg = "Invalid block height: " ++ shown) /\
  (forall n : Z,
     (String.length (decimal n) <= max_str_digits)%nat ->
     (height = AnInt n \/ height = AStr (decimal n)) ->
     validate_block_height height
     = if (0 <=? n)%Z then Ok n
       else Raise (ValueError ("Invalid block height: " ++ decimal n))).
Proof.
  split; [exact (validate_block_height_ok height)|].
  split; [exact (validate_block_height_raise height)|].
  intros n Hlen [-> | ->].
  - rewrite (validate_block_height_int (AnInt n) n eq_refl).
    now rewrite (show_int n Hlen).
  - now rewrite (validate_block_height_int (AStr (decimal n)) n (int_of_text n Hlen)).
Qed.

Lemma validate_block_height_result_witness :
  validate_block_height (AStr "100") = Ok 100%Z /\
  validate_block_height (AStr "-1") = Raise (ValueError "Invalid block height: -1").
Proof.
  split.
  - refine (proj2 (proj2 (validate_block_height_result (AStr "100"))) 100%Z _ _).
    + apply Nat.leb_le. vm_compute. reflexivity.
    + right. reflexivity.
  - refine (proj2 (proj2 (validate_block_height_result (AStr "-1"))) (-1)%Z _ _).
    + apply Nat.leb_le. vm_compute. reflexivity.
    + right. reflexivity.
Defined.

(** X4.  [is_valid_port] accepts an integer, given as such or as its
    decimal text, exactly when it lies between 1 and 65535, and
    [is_valid_timeout] exactly when it lies between 1 and 300. *)
Theorem port_and_timeout_ranges (n : Z) :
  (String.length (decimal n) <= max_str_digits)%nat ->
  (is_valid_port (AnInt n) = true <-> (1 <= n <= 65535)%Z) /\
  is_valid_port (AStr (decimal n)) = is_valid_port (AnInt n) /\
  (is_valid_timeout (AnInt n) = true <-> (1 <= n <= 300)%Z) /\
  is_valid_timeout (AStr (decimal n)) = is_valid_timeout (AnInt n).
Proof.
  intros Hlen. unfold is_valid_port, is_valid_timeout.
  rewrite (int_of_text n Hlen). cbn [int].
  rewrite !andb_true_iff, !Z.leb_le. tauto.
Qed.

Lemma port_and_timeout_ranges_witness :
  is_valid_port (AStr "8332") = true /\ is_valid_timeout (AStr "8332") = false.
Proof.
  assert (Hlen : (String.length (decimal 8332) <= max_str_digits)%nat).
  { apply Nat.leb_le. vm_compute. reflexivity. }
  destruct (port_and_timeout_ranges 8332 Hlen) as (Hport & Hport' & Htime & Htime').
  split.
  - change (AStr "8332") with (AStr (decimal 8332)). rewrite Hport'.
    apply Hport. lia.
  - change (AStr "8332") with (AStr (decimal 8332)). rewrite Htime'.
    apply not_true_is_false. intros E. apply Htime in E. lia.
Defined.

Lemma block_hash_shape_witness :
  is_valid_block_hash (PStr genesis_hash) = true /\
  is_valid_block_hash (PStr (genesis_hash ++ newline)) = true.
Proof.
  split.
  - apply (proj2 (proj1 (block_hash_shape (PStr genesis_hash)))).
    exists genesis_hash. repeat split; vm_compute; reflexivity.
  - apply (proj2 (proj1 (block_hash_shape (PStr (genesis_hash ++ newline))))).
    exists (genesis_hash ++ newline). repeat split; vm_compute; reflexivity.
Defined.

Lemma bitcoin_address_shape_witness :
  is_valid_bitcoin_address (PStr "1A1zP1eP5QGefi2DMPTfTL5SLmv7DivfNa") = true /\
  string_forallb allowed_class (chomp "1A1zP1eP5QGefi2DMPTfTL5SLmv7DivfNa") = true.
Proof.
  assert (H : is_valid_bitcoin_address (PStr "1A1zP1eP5QGefi2DMPTfTL5SLmv7DivfNa") = true).
  { apply (proj2 (proj1 (bitcoin_address_shape (PStr "1A1zP1eP5QGefi2DMPTfTL5SLmv7DivfNa")))).
    exists "1A1zP1eP5QGefi2DMPTfTL5SLmv7DivfNa". split; [reflexivity|].
    left. vm_compute. reflexivity. }
  split; [exact H|].
  exact (proj2 (proj2 (bitcoin_address_shape (PStr "1A1zP1eP5QGefi2DMPTfTL5SLmv7DivfNa")) _ H)).
Defined.

(* ================================================================= *)
(** * What [call] raises and posts *)

Lemma validate_loop_raise (params acc : list PyVal) (e : Exn) :
  validate_loop params acc = Raise e -> exists msg : string, e = ValueError msg.
Proof.
  intros H. destruct (forallb accepted params) eqn:E.
  - rewrite validate_loop_accepted in H by exact E. discriminate H.
  - destruct (validate_loop_some_rejected params acc E) as [msg Hmsg].
    rewrite Hmsg in H. inversion H. now exists msg.
Qed.

Lemma validated_params_inv (params : option (list PyVal)) :
  validated_params params = Ok params \/
  exists msg : string,
    validated_params params = Raise (rpc_error ("Invalid parameters: " ++ msg) (-32602)).
Proof.
  unfold validated_params. destruct params as [[|p ps]|]; cbn [truthy]; auto.
  destruct (validate_json_rpc_params (p :: ps)) as [v|e] eqn:E.
  - left. destruct (validate_ok_inv _ _ E) as [_ ->]. reflexivity.
  - right. destruct (validate_loop_raise _ _ _ E) as [msg ->]. now exists msg.
Qed.

Lemma except_clauses_raise (outcome : result PyVal) (e : Exn) :
  except_clauses outcome = Raise e -> exists err : BitcoinRPCError, e = RPCError err.
Proof.
  destruct outcome as [v|[msg|msg|msg|msg|err]]; cbn [except_clauses]; intros H;
    inversion H; eexists; reflexivity.
Qed.

Lemma handle_response_events (response : Response) :
  fst (_handle_response response) = [] \/ fst (_handle_response response) = [EvJson].
Proof.
  unfold _handle_response. destruct (raise_for_status response); [now left|].
  destruct (json response); now right.
Qed.

Lemma call_no_text (w : World) (self : BitcoinRPCClient) (sess : Session) (method : string)
    (params : option (list PyVal)) :
  session self = Some sess ->
  validated_params params = Ok params ->
  params_have_text params = false ->
  call w self method params = ([], Raise (ValueError int_too_long)).
Proof.
  intros Hs Hv Htext. unfold call. rewrite Hs, Hv. cbv zeta.
  now rewrite (rpc_call_line_raises method params Htext).
Qed.

Lemma call_raise_inv (w : World) (self : BitcoinRPCClient) (method : string)
    (params : option (list PyVal)) (e : Exn) :
  snd (call w self method params) = Raise e ->
  (exists err : BitcoinRPCError, e = RPCError err) \/
  (e = ValueError int_too_long /\ params_have_text params = false /\
   fst (call w self method params) = []).
Proof.
  unfold call. destruct (session self) as [sess|].
  - destruct (validated_params_inv params) as [-> | [msg ->]].
    + cbv zeta. destruct (params_have_text params) eqn:Htext.
      * destruct (rpc_call_line_shown method params Htext) as [line ->]. cbn [logged].
        intros H. left. revert H. destruct (post w sess _ _ _).
        -- destruct (_handle_response response) as [events outcome]. cbn [snd].
           apply except_clauses_raise.
        -- cbn [snd]. intros H. inversion H. eexists. reflexivity.
        -- cbn [snd]. intros H. inversion H. eexists. reflexivity.
        -- cbn [snd]. intros H. inversion H. eexists. reflexivity.
        -- cbn [snd]. intros H. inversion H. eexists. reflexivity.
      * rewrite (rpc_call_line_raises method params Htext). cbn [logged fst snd].
        intros H. inversion H. right. repeat split.
    + cbn [snd]. intros H. inversion H. left. eexists. reflexivity.
  - cbn [snd]. intros H. inversion H. left. eexists. reflexivity.
Qed.

Lemma call_raise_text (w : World) (self : BitcoinRPCClient) (method : string)
    (params : option (list PyVal)) (e : Exn) :
  params_have_text params = true ->
  snd (call w self method params) = Raise e -> exists err : BitcoinRPCError, e = RPCError err.
Proof.
  intros Htext H. destruct (call_raise_inv w self method params e H) as [Herr | (_ & Hno & _)].
  - exact Herr.
  - rewrite Htext in Hno. discriminate Hno.
Qed.

Lemma call_events_inv (w : World) (self : BitcoinRPCClient) (method : string)
    (params : option (list PyVal)) :
  fst (call w self method params) = [] \/
  fst (call w self method params) = [sent w self method params] \/
  fst (call w self method params) = [sent w self method params; EvJson].
Proof.
  unfold call. destruct (session self) as [sess|]; [|now left].
  destruct (validated_params_inv params) as [-> | [msg ->]]; [|now left].
  cbv zeta. destruct (rpc_call_line method params) as [line|e]; cbn [logged]; [|now left].
  destruct (post w sess _ _ _); try (right; left; reflexivity).
  destruct (handle_response_events response) as [H | H];
    destruct (_handle_response response) as [events outcome]; cbn [fst] in *; subst events;
    auto.
Qed.

(** X5.  [call] lets out a [BitcoinRPCError] or, in one case, the
    [ValueError] of the interpreter's limit on the digits of an [int]:
    when a parameter holds an integer of more than 4300 digits, the
    validator lets it through and the f-string of the debug line, which
    stands before the [try], raises.  Nothing is posted then.  With
    parameters that all have a text, what [call] raises is a
    [BitcoinRPCError], whatever the environment and the session. *)
Theorem what_call_raises (w : World) (self : BitcoinRPCClient) (method : string)
    (params : option (list PyVal)) :
  (forall e : Exn,
     snd (call w self method params) = Raise e ->
     (exists err : BitcoinRPCError, e = RPCError err) \/
     (e = ValueError int_too_long /\ params_have_text params = false /\
      fst (call w self method params) = [])) /\
  (params_have_text params = true ->
   forall e : Exn,
     snd (call w self method params) = Raise e ->
     exists err : BitcoinRPCError, e = RPCError err) /\
  (forall sess : Session,
     session self = Some sess ->
     validated_params params = Ok params ->
     params_have_text params = false ->
     call w self method params = ([], Raise (ValueError int_too_long))).
Proof.
  split; [|split].
  - apply call_raise_inv.
  - intros Htext e. now apply call_raise_text.
  - intros sess. apply call_no_text.
Qed.

Lemma what_call_raises_witness :
  (exists err : BitcoinRPCError,
     RPCError (mkBitcoinRPCError (PStr "Cannot connect to Bitcoin node at http://127.0.0.1:8332")
                                 (PInt (-1)) PNone)
     = RPCError err) /\
  call unreachable (__init__ local_config) "getblockhash" (Some [PInt (one_and_zeros 4300)])
  = ([], Raise (ValueError int_too_long)).
Proof.
  split.
  - refine (proj1 (proj2 (what_call_raises unreachable (__init__ local_config)
                            "getblockcount" None)) eq_refl _ _).
    reflexivity.
  - refine (proj2 (proj2 (what_call_raises unreachable (__init__ local_config) "getblockhash"
                            (Some [PInt (one_and_zeros 4300)])))
              (_setup_session local_config) eq_refl eq_refl _).
    cbn [params_have_text forallb has_text]. now rewrite one_and_zeros_no_text.
Defined.

(** X6.  [call] posts at most one request and decodes at most one body,
    and only after the post; the request posted goes to the configured
    URL with the configured timeout and carries the method and the
    parameters of the caller as they were given: validation changes
    none of them. *)
Theorem call_posts_what_it_was_given (w : World) (self : BitcoinRPCClient) (method : string)
    (params : option (list PyVal)) :
  (fst (call w self method params) = [] \/
   fst (call w self method params) = [sent w self method params] \/
   fst (call w self method params) = [sent w self method params; EvJson]) /\
  sent w self method params
  = EvPost (rpc_url (config self))
           (mkRequest "2.0" (time_us w) method
              (match params with Some ps => ps | None => [] end))
           (timeout (config self)).
Proof.
  split; [apply call_events_inv|].
  unfold sent, _create_request. now destruct params as [[|p ps]|].
Qed.

Lemma handle_data_not_mapping (data : PyVal) :
  is_mapping data = false ->
  exists msg : string,
    except_clauses (handle_data data) = Raise (rpc_error ("Unexpected error: " ++ msg) (-1)).
Proof.
  intros H. unfold handle_data.
  destruct data; try discriminate H; cbn [contains bind except_clauses exn_str];
    try (eexists; reflexivity).
  - destruct (is_substring "error" s); cbn [getitem bind get except_clauses exn_str];
      eexists; reflexivity.
  - destruct (existsb (is_str_eq "error") xs); cbn [getitem bind get except_clauses exn_str];
      eexists; reflexivity.
Qed.

(** X7.  When the network returns a 2xx response whose body decodes to a
    value that is not a mapping (a list, a text, a number, a boolean,
    null), [call] returns nothing: it raises a [BitcoinRPCError] with
    the code -1 whose message starts with "Unexpected error: ". *)
Theorem body_not_a_mapping (w : World) (self : BitcoinRPCClient) (method : string)
    (params params' : option (list PyVal)) (response : Response) (data : PyVal) :
  answered w self method params params' response ->
  success_status response ->
  json response = Some data ->
  is_mapping data = false ->
  exists msg : string,
    call w self method params
    = ([sent w self method params'; EvJson],
       Raise (rpc_error ("Unexpected error: " ++ msg) (-1))).
Proof.
  intros Hans Hst Hjson Hmap.
  rewrite (call_answered _ _ _ _ _ _ Hans).
  unfold _handle_response. rewrite (success_status_no_raise _ Hst), Hjson. cbn [fst snd].
  destruct (handle_data_not_mapping data Hmap) as [msg Hmsg].
  exists msg. now rewrite Hmsg.
Qed.

Lemma body_not_a_mapping_witness :
  exists msg : string,
    call (server (mkResponse 200 "null" (Some PNone))) (__init__ local_config)
         "getblockcount" None
    = ([sent (server (mkResponse 200 "null" (Some PNone))) (__init__ local_config)
             "getblockcount" None;
        EvJson],
       Raise (rpc_error ("Unexpected error: " ++ msg) (-1))).
Proof.
  refine (body_not_a_mapping (server (mkResponse 200 "null" (Some PNone)))
            (__init__ local_config) "getblockcount" None None
            (mkResponse 200 "null" (Some PNone)) PNone _ _ _ _).
  - exists (_setup_session local_config). repeat esplit.
  - unfold success_status. cbn. lia.
  - reflexivity.
  - reflexivity.
Defined.

(** X8.  When [session.post] raises instead of returning a response (the
    call having come to the post: an open session, parameters that
    validate and that its debug line can show), [call] raises a
    [BitcoinRPCError] with the code -1 after that single post and decodes
    nothing; for a connection error the message names the URL and for a
    timeout the configured number of seconds, whatever the text of the
    exception was. *)
Theorem transport_failure_is_reported (w : World) (self : BitcoinRPCClient) (sess : Session)
    (method : string) (params params' : option (list PyVal)) :
  session self = Some sess ->
  validated_params params = Ok params' ->
  params_have_text params' = true ->
  (forall response : Response,
     post w sess (rpc_url (config self)) (_create_request w method params')
          (timeout (config self)) <> Returned response) ->
  (exists msg : string,
     call w self method params = ([sent w self method params'], Raise (rpc_error msg (-1)))) /\
  (forall e : string,
     post w sess (rpc_url (config self)) (_create_request w method params')
          (timeout (config self)) = RaisedConnectionError e ->
     snd (call w self method params)
     = Raise (rpc_error ("Cannot connect to Bitcoin node at " ++ rpc_url (config self)) (-1))) /\
  (forall e : string,
     post w sess (rpc_url (config self)) (_create_request w method params')
          (timeout (config self)) = RaisedTimeout e ->
     snd (call w self method params)
     = Raise (rpc_error ("Request timeout after " ++ decimal (timeout (config self))
                         ++ " seconds") (-1))).
Proof.
  intros Hs Hv Htext Hpost. unfold call. rewrite Hs, Hv. cbv zeta.
  destruct (rpc_call_line_shown method params' Htext) as [line ->]. cbn [logged].
  destruct (post w sess _ _ _) eqn:E.
  - now destruct (Hpost response).
  - split; [eexists; reflexivity | split; intros e' He'; [reflexivity | discriminate He']].
  - split; [eexists; reflexivity | split; intros e' He'; [discriminate He' | reflexivity]].
  - split; [eexists; reflexivity | split; intros e' He'; discriminate He'].
  - split; [eexists; reflexivity | split; intros e' He'; discriminate He'].
Qed.

Lemma transport_failure_is_reported_witness :
  snd (call unreachable (__init__ local_config) "getblockcount" None)
  = Raise (rpc_error "Cannot connect to Bitcoin node at http://127.0.0.1:8332" (-1)).
Proof.
  refine (proj1 (proj2 (transport_failure_is_reported unreachable (__init__ local_config)
                          (_setup_session local_config) "getblockcount" None None
                          eq_refl eq_refl eq_refl _)) "Connection refused" eq_refl).
  intros response H. discriminate H.
Defined.

(* ================================================================= *)
(** * [test_connection] and [get_node_info] *)

(** X9.  [test_connection] never returns [False]: it returns [True] or
    raises the [BitcoinRPCError] of its call, after the events of that
    one call. *)
Theorem test_connection_outcomes (w : World) (self : BitcoinRPCClient) :
  fst (test_connection w self) = fst (call w self "getblockchaininfo" None) /\
  (snd (test_connection w self) = Ok true \/
   exists err : BitcoinRPCError,
     snd (test_connection w self) = Raise (RPCError err) /\
     snd (call w self "getblockchaininfo" None) = Raise (RPCError err)).
Proof.
  unfold test_connection.
  pose proof (fun e => call_raise_text w self "getblockchaininfo" None e eq_refl) as Hraise.
  destruct (call w self "getblockchaininfo" None) as [events [v|e]]; cbn [fst snd] in *.
  - split; [reflexivity|]. now left.
  - split; [reflexivity|]. right.
    destruct (Hraise e eq_refl) as [err ->]. now exists err.
Qed.

Lemma get_or_get (kvs : list (string * PyVal)) (k : string) (default : PyVal) :
  get (PDict kvs) k default = Ok (get_or kvs k default).
Proof. reflexivity. Qed.

(** X10.  When both calls of [get_node_info] return mappings, the summary
    has the six keys [chain], [blocks], [bestblockhash], [version],
    [subversion], [connections] in that order, each with the member of
    the corresponding result or [None] when the member is missing, and
    the events are those of the first call followed by those of the
    second. *)
Theorem node_info_summary (w1 w2 : World) (self : BitcoinRPCClient)
    (blockchain_info network_info : list (string * PyVal)) :
  snd (call w1 self "getblockchaininfo" None) = Ok (PDict blockchain_info) ->
  snd (call w2 self "getnetworkinfo" None) = Ok (PDict network_info) ->
  get_node_info w1 w2 self
  = ((fst (call w1 self "getblockchaininfo" None)
      ++ fst (call w2 self "getnetworkinfo" None))%list,
     Ok (PDict [("chain", get_or blockchain_info "chain" PNone);
                ("blocks", get_or blockchain_info "blocks" PNone);
                ("bestblockhash", get_or blockchain_info "bestblockhash" PNone);
                ("version", get_or network_info "version" PNone);
                ("subversion", get_or network_info "subversion" PNone);
                ("connections", get_or network_info "connections" PNone)])).
Proof.
  unfold get_node_info.
  destruct (call w1 self "getblockchaininfo" None) as [events1 outcome1].
  destruct (call w2 self "getnetworkinfo" None) as [events2 outcome2].
  cbn [fst snd]. intros -> ->. reflexivity.
Qed.

Lemma node_info_summary_witness :
  snd (get_node_info (answering (PDict [("chain", PStr "main"); ("blocks", PInt 100)]))
                     (answering (PDict [("version", PInt 220000); ("connections", PInt 8)]))
                     (__init__ local_config))
  = Ok (PDict [("chain", PStr "main"); ("blocks", PInt 100); ("bestblockhash", PNone);
               ("version", PInt 220000); ("subversion", PNone); ("connections", PInt 8)]).
Proof.
  rewrite (node_info_summary
             (answering (PDict [("chain", PStr "main"); ("blocks", PInt 100)]))
             (answering (PDict [("version", PInt 220000); ("connections", PInt 8)]))
             (__init__ local_config)
             [("chain", PStr "main"); ("blocks", PInt 100)]
             [("version", PInt 220000); ("connections", PInt 8)] eq_refl eq_refl).
  reflexivity.
Defined.

(** X11.  A failure of the first call of [get_node_info] is raised as it
    is and the second call is not made; a failure of the second call is
    raised as it is, after the events of both calls.  When both calls
    return and one of the two results is not a mapping, [get_node_info]
    raises the [AttributeError] of its missing [get]: unlike [call], it
    can raise something else than a [BitcoinRPCError], and it raises
    nothing but these two. *)
Theorem node_info_failures (w1 w2 : World) (self : BitcoinRPCClient) :
  (forall e : Exn,
     snd (call w1 self "getblockchaininfo" None) = Raise e ->
     get_node_info w1 w2 self = (fst (call w1 self "getblockchaininfo" None), Raise e)) /\
  (forall (info : PyVal) (e : Exn),
     snd (call w1 self "getblockchaininfo" None) = Ok info ->
     snd (call w2 self "getnetworkinfo" None) = Raise e ->
     get_node_info w1 w2 self
     = ((fst (call w1 self "getblockchaininfo" None)
         ++ fst (call w2 self "getnetworkinfo" None))%list, Raise e)) /\
  (forall info1 info2 : PyVal,
     snd (call w1 self "getblockchaininfo" None) = Ok info1 ->
     snd (call w2 self "getnetworkinfo" None) = Ok info2 ->
     is_mapping info1 && is_mapping info2 = false ->
     get_node_info w1 w2 self
     = ((fst (call w1 self "getblockchaininfo" None)
         ++ fst (call w2 self "getnetworkinfo" None))%list,
        Raise (AttributeError
                 ("'" ++ type_name (if is_mapping info1 then info2 else info1)
                  ++ "' object has no attribute 'get'")))) /\
  (forall e : Exn,
     snd (get_node_info w1 w2 self) = Raise e ->
     (exists err : BitcoinRPCError, e = RPCError err) \/
     (exists msg : string, e = AttributeError msg)).
Proof.
  pose proof (fun e => call_raise_text w1 self "getblockchaininfo" None e eq_refl) as Hraise1.
  pose proof (fun e => call_raise_text w2 self "getnetworkinfo" None e eq_refl) as Hraise2.
  unfold get_node_info.
  destruct (call w1 self "getblockchaininfo" None) as [events1 outcome1].
  destruct (call w2 self "getnetworkinfo" None) as [events2 outcome2].
  cbn [fst snd] in *. repeat split.
  - intros e ->. reflexivity.
  - intros info e -> ->. reflexivity.
  - intros info1 info2 -> -> Hmap.
    destruct info1; cbn [is_mapping andb get bind] in *; try reflexivity.
    destruct info2; cbn [is_mapping get bind] in *; try reflexivity; discriminate Hmap.
  - intros e. destruct outcome1 as [info1|e1].
    + destruct outcome2 as [info2|e2]; cbn [snd].
      * intros H. right.
        destruct info1; cbn [get bind] in H; try (inversion H; eexists; reflexivity).
        destruct info2; cbn [get bind] in H; inversion H; eexists; reflexivity.
      * intros H. inversion H. subst e2. left. now apply Hraise2.
    + cbn [snd]. intros H. inversion H. subst e1. left. now apply Hraise1.
Qed.

Lemma node_info_failures_witness :
  get_node_info unreachable (answering PNone) (__init__ local_config)
  = ([sent unreachable (__init__ local_config) "getblockchaininfo" None],
     Raise (rpc_error "Cannot connect to Bitcoin node at http://127.0.0.1:8332" (-1))) /\
  snd (get_node_info (answering PNone) (answering PNone) (__init__ local_config))
  = Raise (AttributeError "'NoneType' object has no attribute 'get'").
Proof.
  destruct (node_info_failures unreachable (answering PNone) (__init__ local_config))
    as (Hfirst & _).
  destruct (node_info_failures (answering PNone) (answering PNone) (__init__ local_config))
    as (_ & _ & Hboth & _).
  split.
  - exact (Hfirst (rpc_error "Cannot connect to Bitcoin node at http://127.0.0.1:8332" (-1))
             eq_refl).
  - now rewrite (Hboth PNone PNone eq_refl eq_refl eq_refl).
Defined.

(* ================================================================= *)
(** * The command classes over [call] *)

Lemma call_accepted (w : World) (self : BitcoinRPCClient) (sess : Session)
    (method : string) (params : list PyVal) :
  session self = Some sess ->
  forallb accepted params = true ->
  forallb has_text params = true ->
  exists (events : list Event) (outcome : result PyVal),
    call w self method (Some params) = (sent w self method (Some params) :: events, outcome).
Proof.
  intros Hs Hacc Htext. unfold call. rewrite Hs, (validated_params_accepted params Hacc).
  cbv zeta.
  destruct (rpc_call_line_shown method (Some params) Htext) as [line ->]. cbn [logged].
  destruct (post w sess _ _ _);
    [destruct (_handle_response response) as [events outcome]|..];
    eexists _, _; reflexivity.
Qed.

Lemma call_accepted_no_text (w : World) (self : BitcoinRPCClient) (sess : Session)
    (method : string) (params : list PyVal) :
  session self = Some sess ->
  forallb accepted params = true ->
  forallb has_text params = false ->
  call w self method (Some params) = ([], Raise (ValueError int_too_long)).
Proof.
  intros Hs Hacc Htext. apply (call_no_text w self sess); [exact Hs | | exact Htext].
  now apply validated_params_accepted.
Qed.

Lemma call_refused_events (w : World) (self : BitcoinRPCClient) (method : string)
    (params : list PyVal) :
  forallb accepted params = false ->
  fst (call w self method (Some params)) = [] /\
  exists e : Exn, snd (call w self method (Some params)) = Raise e.
Proof.
  intros Hrej. destruct (validate_loop_some_rejected params [] Hrej) as [msg Hmsg].
  destruct (session self) as [sess|] eqn:Hs.
  - rewrite (call_invalid_params w self sess method params msg Hs Hmsg).
    split; [reflexivity | eexists; reflexivity].
  - rewrite (call_without_session w self method (Some params) Hs).
    split; [reflexivity | eexists; reflexivity].
Qed.

Lemma call_first_refused (w : World) (self : BitcoinRPCClient) (sess : Session)
    (method : string) (pre post : list PyVal) (p : PyVal) :
  session self = Some sess ->
  forallb accepted pre = true -> accepted p = false ->
  call w self method (Some (pre ++ p :: post)%list)
  = ([], Raise (rpc_error ("Invalid parameters: " ++ rejection p) (-32602))).
Proof.
  intros Hs Hpre Hp. apply (call_invalid_params w self sess); [exact Hs|].
  unfold validate_json_rpc_params. now apply validate_loop_first_rejected.
Qed.

Lemma call_head_refused (w : World) (self : BitcoinRPCClient) (sess : Session)
    (method : string) (p : PyVal) (post : list PyVal) :
  session self = Some sess ->
  accepted p = false ->
  call w self method (Some (p :: post))
  = ([], Raise (rpc_error ("Invalid parameters: " ++ rejection p) (-32602))).
Proof.
  intros Hs Hp. exact (call_first_refused w self sess method [] post p Hs eq_refl Hp).
Qed.

Lemma valid_hash_is_str (v : PyVal) :
  is_valid_block_hash v = true -> exists s, v = PStr s.
Proof. destruct v; try discriminate. now exists s. Qed.

Lemma valid_hash_accepted (v : PyVal) :
  is_valid_block_hash v = true -> accepted v = true.
Proof.
  intros H. destruct (valid_hash_is_str v H) as [s ->].
  cbn [accepted]. now apply valid_hash_allowed.
Qed.

(** The three commands on a hash given as a text: the check, then [call]. *)
Lemma hash_commands_paths (w : World) (client : BitcoinRPCClient) (hash : string) (arg : PyVal) :
  get_block w client (PStr hash) arg
  = (if is_valid_block_hash (PStr hash)
     then call w client "getblock" (Some [PStr hash; arg])
     else ([], Raise (ValueError ("Invalid block hash: " ++ hash)))) /\
  get_block_header w client (PStr hash) arg
  = (if is_valid_block_hash (PStr hash)
     then call w client "getblockheader" (Some [PStr hash; arg])
     else ([], Raise (ValueError ("Invalid block hash: " ++ hash)))) /\
  get_transaction w client (PStr hash) arg
  = (if is_valid_block_hash (PStr hash)
     then call w client "gettransaction" (Some [PStr hash; arg])
     else ([], Raise (ValueError ("Invalid transaction ID: " ++ hash)))).
Proof.
  unfold get_block, get_block_header, get_transaction,
    validate_block_hash, validate_transaction_id.
  replace (is_valid_transaction_id (PStr hash)) with (is_valid_block_hash (PStr hash))
    by reflexivity.
  now destruct (is_valid_block_hash (PStr hash)).
Qed.

(** X12.  [get_block], [get_block_header] and [get_transaction] stop
    before the network, with the [ValueError] naming the argument, when
    the hash is not valid.  A valid hash is never refused by the
    validator of [call]: on an open session, with a second argument that
    validator accepts and that has a text, the request is posted with the
    hash and the second argument as they were given.  A second argument
    without a text (an integer of more than 4300 digits) passes the
    validator and stops the command at the debug line of [call], with the
    [ValueError] of the interpreter's limit and nothing posted. *)
Theorem hash_commands (w : World) (client : BitcoinRPCClient) (hash : string) (arg : PyVal) :
  (is_valid_block_hash (PStr hash) = false ->
   get_block w client (PStr hash) arg
     = ([], Raise (ValueError ("Invalid block hash: " ++ hash))) /\
   get_block_header w client (PStr hash) arg
     = ([], Raise (ValueError ("Invalid block hash: " ++ hash))) /\
   get_transaction w client (PStr hash) arg
     = ([], Raise (ValueError ("Invalid transaction ID: " ++ hash)))) /\
  (is_valid_block_hash (PStr hash) = true ->
   forall sess : Session,
     session client = Some sess -> accepted arg = true ->
     (has_text arg = true ->
      exists (events1 events2 events3 : list Event) (outcome1 outcome2 outcome3 : result PyVal),
        get_block w client (PStr hash) arg
          = (sent w client "getblock" (Some [PStr hash; arg]) :: events1, outcome1) /\
        get_block_header w client (PStr hash) arg
          = (sent w client "getblockheader" (Some [PStr hash; arg]) :: events2, outcome2) /\
        get_transaction w client (PStr hash) arg
          = (sent w client "gettransaction" (Some [PStr hash; arg]) :: events3, outcome3)) /\
     (has_text arg = false ->
      get_block w client (PStr hash) arg = ([], Raise (ValueError int_too_long)) /\
      get_block_header w client (PStr hash) arg = ([], Raise (ValueError int_too_long)) /\
      get_transaction w client (PStr hash) arg = ([], Raise (ValueError int_too_long)))).
Proof.
  destruct (hash_commands_paths w client hash arg) as (-> & -> & ->).
  split.
  - intros ->. repeat split.
  - intros H sess Hs Harg. rewrite H.
    assert (Hacc : forallb accepted [PStr hash; arg] = true).
    { cbn [forallb]. now rewrite (valid_hash_accepted (PStr hash) H), Harg. }
    split; intros Htext.
    + assert (Hall : forallb has_text [PStr hash; arg] = true).
      { cbn [forallb has_text]. now rewrite Htext. }
      destruct (call_accepted w client sess "getblock" _ Hs Hacc Hall) as (ev1 & out1 & H1).
      destruct (call_accepted w client sess "getblockheader" _ Hs Hacc Hall)
        as (ev2 & out2 & H2).
      destruct (call_accepted w client sess "gettransaction" _ Hs Hacc Hall)
        as (ev3 & out3 & H3).
      exists ev1, ev2, ev3, out1, out2, out3. now rewrite H1, H2, H3.
    + assert (Hall : forallb has_text [PStr hash; arg] = false).
      { cbn [forallb has_text]. now rewrite Htext. }
      now rewrite !(call_accepted_no_text w client sess _ _ Hs Hacc Hall).
Qed.

Lemma hash_commands_witness :
  get_block (answering (PStr "00")) (__init__ local_config) (PStr "nonexistent") (PInt 1)
    = ([], Raise (ValueError "Invalid block hash: nonexistent")) /\
  (exists (events : list Event) (outcome : result PyVal),
     get_block (answering (PStr "00")) (__init__ local_config) (PStr genesis_hash) (PInt 1)
       = (sent (answering (PStr "00")) (__init__ local_config) "getblock"
               (Some [PStr genesis_hash; PInt 1]) :: events, outcome)) /\
  get_block (answering (PStr "00")) (__init__ local_config) (PStr genesis_hash)
            (PInt (one_and_zeros 4300))
    = ([], Raise (ValueError int_too_long)).
Proof.
  destruct (hash_commands (answering (PStr "00")) (__init__ local_config)
              "nonexistent" (PInt 1)) as [Hbad _].
  destruct (hash_commands (answering (PStr "00")) (__init__ local_config)
              genesis_hash (PInt 1)) as [_ Hgood].
  destruct (hash_commands (answering (PStr "00")) (__init__ local_config)
              genesis_hash (PInt (one_and_zeros 4300))) as [_ Hlong].
  split; [|split].
  - exact (proj1 (Hbad eq_refl)).
  - destruct (proj1 (Hgood eq_refl (_setup_session local_config) eq_refl eq_refl) eq_refl)
      as (ev1 & _ & _ & out1 & _ & _ & H1 & _).
    now exists ev1, out1.
  - exact (proj1 (proj2 (Hlong eq_refl (_setup_session local_config) eq_refl eq_refl)
                    one_and_zeros_no_text)).
Defined.

(** X13.  [get_block_hash] posts nothing but non-negative integers: it
    stops with the [ValueError] of [validate_block_height] before the
    network when the height does not validate.  Otherwise it shows the
    integer in its debug line: an integer that has a text is handed to
    [call], and on an open session the request is then posted with that
    integer as its only parameter, also when the height was given as a
    text; an integer of more than 4300 digits stops the command there,
    with the [ValueError] of the interpreter's limit and nothing posted.
    Only a height given as an [int] can do so: what [int] reads from a
    text has at most 4300 digits, and therefore a text. *)
Theorem block_hash_by_height (w : World) (client : BitcoinRPCClient) (height : IntOrStr) :
  (forall e : Exn,
     validate_block_height height = Raise e ->
     get_block_hash w client height = ([], Raise e) /\
     exists msg : string, e = ValueError msg) /\
  (forall n : Z,
     validate_block_height height = Ok n ->
     (0 <= n)%Z /\
     (int_has_text n = true ->
      get_block_hash w client height = call w client "getblockhash" (Some [PInt n]) /\
      forall sess : Session,
        session client = Some sess ->
        exists (events : list Event) (outcome : result PyVal),
          get_block_hash w client height
            = (sent w client "getblockhash" (Some [PInt n]) :: events, outcome)) /\
     (int_has_text n = false ->
      get_block_hash w client height = ([], Raise (ValueError int_too_long)))) /\
  (forall (s : string) (n : Z),
     height = AStr s -> validate_block_height height = Ok n -> int_has_text n = true).
Proof.
  split; [|split].
  - intros e He. unfold get_block_hash. rewrite He. split; [reflexivity|].
    destruct (validate_block_height_raise height e He) as (msg & -> & _). now exists msg.
  - intros n Hn. destruct (validate_block_height_ok height n Hn) as [Hpos _].
    unfold get_block_hash. rewrite Hn, str_int_spec.
    split; [exact Hpos|]. split; intros Htext; rewrite Htext; cbn [bind logged].
    + split; [reflexivity|]. intros sess Hs.
      apply (call_accepted w client sess); [exact Hs | reflexivity |].
      cbn [forallb has_text]. now rewrite Htext.
    + reflexivity.
  - intros s n -> Hn. destruct (validate_block_height_ok (AStr s) n Hn) as [_ Hint].
    cbn [int] in Hint. apply (int_of_str_has_text s).
    destruct (int_of_str s); try discriminate Hint. now inversion Hint.
Qed.

Lemma block_hash_by_height_witness :
  (exists (events : list Event) (outcome : result PyVal),
     get_block_hash (answering (PStr "00")) (__init__ local_config) (AStr "100")
       = (sent (answering (PStr "00")) (__init__ local_config) "getblockhash"
               (Some [PInt 100]) :: events, outcome)) /\
  get_block_hash (answering (PStr "00")) (__init__ local_config) (AnInt (one_and_zeros 4300))
    = ([], Raise (ValueError int_too_long)).
Proof.
  split.
  - destruct (block_hash_by_height (answering (PStr "00")) (__init__ local_config)
                (AStr "100")) as (_ & H & _).
    destruct (H 100%Z eq_refl) as (_ & Hpost & _).
    exact (proj2 (Hpost eq_refl) (_setup_session local_config) eq_refl).
  - destruct (block_hash_by_height (answering (PStr "00")) (__init__ local_config)
                (AnInt (one_and_zeros 4300))) as (_ & H & _).
    assert (Hvalid : validate_block_height (AnInt (one_and_zeros 4300))
                     = Ok (one_and_zeros 4300)).
    { unfold validate_block_height, is_valid_block_height. cbn [int].
      replace (0 <=? one_and_zeros 4300)%Z with true; [reflexivity|].
      symmetry. apply Z.leb_le. apply one_and_zeros_nonneg. }
    destruct (H (one_and_zeros 4300) Hvalid) as (_ & _ & Hlong).
    exact (Hlong one_and_zeros_no_text).
Defined.

Lemma valid_address_accepted (v : PyVal) :
  is_valid_bitcoin_address v = true -> accepted v = true.
Proof.
  destruct v; try discriminate. intros H. cbn [accepted]. now apply valid_address_allowed.
Qed.

Lemma valid_address_is_str (v : PyVal) :
  is_valid_bitcoin_address v = true -> exists s, v = PStr s.
Proof. destruct v; try discriminate. now exists s. Qed.

Lemma valid_addresses_have_text (addresses : list PyVal) :
  forallb is_valid_bitcoin_address addresses = true -> forallb has_text addresses = true.
Proof.
  induction addresses as [|a rest IH]; [reflexivity|].
  cbn [forallb]. intros H. apply andb_prop in H. destruct H as [Ha Hrest].
  destruct (valid_address_is_str a Ha) as [s ->]. cbn [has_text]. now apply IH.
Qed.

Lemma validate_addresses_valid (addresses : list PyVal) :
  forallb is_valid_bitcoin_address addresses = true ->
  validate_addresses addresses = Ok addresses.
Proof.
  induction addresses as [|a rest IH]; [reflexivity|].
  cbn [forallb]. intros H. apply andb_prop in H. destruct H as [Ha Hrest].
  cbn [validate_addresses]. unfold validate_bitcoin_address. rewrite Ha.
  cbn [negb bind]. now rewrite (IH Hrest).
Qed.

Lemma validate_addresses_invalid (valid rest : list PyVal) (a : string) :
  forallb is_valid_bitcoin_address valid = true ->
  is_valid_bitcoin_address (PStr a) = false ->
  validate_addresses (valid ++ PStr a :: rest)%list
  = Raise (ValueError ("Invalid Bitcoin address: " ++ a)).
Proof.
  induction valid as [|b valid IH]; intros Hvalid Ha.
  - cbn [app validate_addresses]. unfold validate_bitcoin_address. now rewrite Ha.
  - cbn [forallb] in Hvalid. apply andb_prop in Hvalid. destruct Hvalid as [Hb Hvalid].
    cbn [app validate_addresses]. unfold validate_bitcoin_address at 1. rewrite Hb.
    cbn [negb bind]. now rewrite (IH Hvalid Ha).
Qed.

(** The debug line of [list_unspent] and of [list_transactions]: two
    values shown one after the other. *)
Lemma two_shown (a b : PyVal) :
  has_text a = true -> has_text b = true ->
  exists shown_a shown_b : string, str a = Ok shown_a /\ str b = Ok shown_b.
Proof.
  intros Ha Hb. destruct (str_shown a Ha) as [sa Hsa], (str_shown b Hb) as [sb Hsb].
  now exists sa, sb.
Qed.

Lemma two_not_shown {A : Type} (a b : PyVal) (line : string -> string -> string)
    (next : list Event * result A) :
  has_text a && has_text b = false ->
  logged (shown_a <- str a ;; shown_b <- str b ;; Ok (line shown_a shown_b)) next
  = ([], Raise (ValueError int_too_long)).
Proof.
  intros H. destruct (has_text a) eqn:Ha.
  - destruct (str_shown a Ha) as [sa ->]. cbn [andb] in H.
    now rewrite (str_raises b H).
  - now rewrite (str_raises a Ha).
Qed.

(** X14.  [get_address_info] and [list_unspent] stop before the network
    with the [ValueError] naming the first address that is not valid.
    Valid addresses are never refused by the validator of [call]: on an
    open session [get_address_info] posts the address as it was given,
    and [list_unspent], with confirmation bounds that validator accepts,
    posts the bounds and the list of addresses as it was given.  For
    [list_unspent] this supposes bounds that have a text: it shows them
    in its debug line before anything else, and a bound without one (an
    integer of more than 4300 digits) stops it there with the
    [ValueError] of the interpreter's limit, whatever the addresses. *)
Theorem address_commands (w : World) (client : BitcoinRPCClient) :
  (forall address : string,
     is_valid_bitcoin_address (PStr address) = false ->
     get_address_info w client (PStr address)
       = ([], Raise (ValueError ("Invalid Bitcoin address: " ++ address)))) /\
  (forall (min_conf max_conf : PyVal) (a : string) (valid rest : list PyVal),
     has_text min_conf = true -> has_text max_conf = true ->
     forallb is_valid_bitcoin_address valid = true ->
     is_valid_bitcoin_address (PStr a) = false ->
     list_unspent w client min_conf max_conf (Some (valid ++ PStr a :: rest)%list)
       = ([], Raise (ValueError ("Invalid Bitcoin address: " ++ a)))) /\
  (forall (sess : Session) (address : PyVal),
     session client = Some sess ->
     is_valid_bitcoin_address address = true ->
     exists (events : list Event) (outcome : result PyVal),
       get_address_info w client address
         = (sent w client "getaddressinfo" (Some [address]) :: events, outcome)) /\
  (forall (sess : Session) (min_conf max_conf a : PyVal) (others : list PyVal),
     session client = Some sess ->
     accepted min_conf = true -> accepted max_conf = true ->
     has_text min_conf = true -> has_text max_conf = true ->
     forallb is_valid_bitcoin_address (a :: others) = true ->
     exists (events : list Event) (outcome : result PyVal),
       list_unspent w client min_conf max_conf (Some (a :: others))
         = (sent w client "listunspent" (Some [min_conf; max_conf; PList (a :: others)])
              :: events, outcome)) /\
  (forall (min_conf max_conf : PyVal) (addresses : option (list PyVal)),
     has_text min_conf && has_text max_conf = false ->
     list_unspent w client min_conf max_conf addresses
       = ([], Raise (ValueError int_too_long))).
Proof.
  split; [|split; [|split; [|split]]].
  - intros address H. unfold get_address_info, validate_bitcoin_address. now rewrite H.
  - intros min_conf max_conf a valid rest Hmin Hmax Hvalid Ha. unfold list_unspent.
    destruct (two_shown min_conf max_conf Hmin Hmax) as (smin & smax & -> & ->).
    cbn [bind logged].
    destruct (valid ++ PStr a :: rest)%list as [|x xs] eqn:E.
    + destruct valid; discriminate E.
    + rewrite <- E. now rewrite (validate_addresses_invalid valid rest a Hvalid Ha).
  - intros sess address Hs H. unfold get_address_info, validate_bitcoin_address.
    rewrite H. cbn [negb].
    destruct (valid_address_is_str address H) as [s ->]. cbn [str bind logged].
    apply (call_accepted w client sess); [exact Hs | | reflexivity].
    cbn [forallb]. now rewrite (valid_address_accepted (PStr s) H).
  - intros sess min_conf max_conf a others Hs Hmin Hmax Htmin Htmax Hall. unfold list_unspent.
    destruct (two_shown min_conf max_conf Htmin Htmax) as (smin & smax & -> & ->).
    cbn [bind logged].
    rewrite (validate_addresses_valid (a :: others) Hall).
    apply (call_accepted w client sess); [exact Hs | |].
    + cbn [forallb accepted]. now rewrite Hmin, Hmax.
    + change (forallb has_text [min_conf; max_conf; PList (a :: others)])
        with (has_text min_conf && (has_text max_conf
                                    && (forallb has_text (a :: others) && true))).
      now rewrite Htmin, Htmax, (valid_addresses_have_text (a :: others) Hall).
  - intros min_conf max_conf addresses H. unfold list_unspent.
    exact (two_not_shown min_conf max_conf
             (fun shown_min shown_max =>
                "Executing listunspent, min_conf: " ++ shown_min
                ++ ", max_conf: " ++ shown_max) _ H).
Qed.

Lemma address_commands_witness :
  list_unspent (answering (PList [])) (__init__ local_config) (PInt 1) (PInt 9999999)
    (Some [PStr "1A1zP1eP5QGefi2DMPTfTL5SLmv7DivfNa"; PStr "bc1short"])
  = ([], Raise (ValueError "Invalid Bitcoin address: bc1short")) /\
  list_unspent (answering (PList [])) (__init__ local_config) (PInt (one_and_zeros 4300))
    (PInt 9999999) None
  = ([], Raise (ValueError int_too_long)).
Proof.
  split.
  - exact (proj1 (proj2 (address_commands (answering (PList [])) (__init__ local_config)))
             (PInt 1) (PInt 9999999) "bc1short"
             [PStr "1A1zP1eP5QGefi2DMPTfTL5SLmv7DivfNa"] [] eq_refl eq_refl eq_refl eq_refl).
  - refine (proj2 (proj2 (proj2 (proj2 (address_commands (answering (PList []))
                                          (__init__ local_config)))))
              (PInt (one_and_zeros 4300)) (PInt 9999999) None _).
    cbn [has_text]. now rewrite one_and_zeros_no_text.
Defined.

Lemma empty_string_refused : allowed_chars_match "" = false.
Proof. reflexivity. Qed.

Lemma star_refused : allowed_chars_match "*" = false.
Proof. reflexivity. Qed.

(** X15.  [disconnect_node] cannot disconnect by node id: without an
    address (or with an empty one) it hands [call] an empty text as first
    parameter, which the validator of [call] refuses, so nothing is
    posted and an exception is raised: on an open session the
    invalid-parameters error -32602 when the node id has a text, and
    before that, at the debug line that shows the node id, the
    [ValueError] of the interpreter's limit when the node id is an
    integer of more than 4300 digits.  With neither argument, or with
    both, it raises its own [ValueError]. *)
Theorem disconnect_by_id_never_posts (w : World) (client : BitcoinRPCClient)
    (address : option string) (node_id : option Z) :
  opt_truthy address = false ->
  fst (disconnect_node w client address node_id) = [] /\
  (exists e : Exn, snd (disconnect_node w client address node_id) = Raise e) /\
  (forall (sess : Session) (n : Z),
     session client = Some sess -> address = None -> node_id = Some n ->
     int_has_text n = true ->
     snd (disconnect_node w client address node_id) = Raise (invalid_characters "")) /\
  (forall n : Z,
     address = None -> node_id = Some n ->
     int_has_text n = false ->
     disconnect_node w client address node_id = ([], Raise (ValueError int_too_long))).
Proof.
  intros Hfalse.
  assert (Hrej : forall x, forallb accepted [PStr ""; x] = false) by reflexivity.
  unfold disconnect_node. rewrite Hfalse.
  destruct address as [a|], node_id as [n|]; cbn [fst snd].
  - repeat split; [eexists; reflexivity | discriminate | discriminate].
  - cbn [of_opt_int str repr bind logged].
    destruct (call_refused_events w client "disconnectnode" _ (Hrej PNone)) as [Hev Hraise].
    repeat split; [exact Hev | exact Hraise | discriminate | discriminate].
  - cbn [of_opt_int str repr]. rewrite str_int_spec.
    destruct (call_refused_events w client "disconnectnode" _ (Hrej (PInt n)))
      as [Hev Hraise].
    destruct (int_has_text n) eqn:Htext; cbn [bind logged fst snd].
    + repeat split; [exact Hev | exact Hraise | |].
      * intros sess m Hs _ Hm _. inversion Hm. subst m.
        now rewrite (call_head_refused w client sess "disconnectnode" (PStr "") [PInt n]
                       Hs eq_refl).
      * intros m _ Hm Hno. inversion Hm. subst m. rewrite Htext in Hno. discriminate Hno.
    + repeat split; [eexists; reflexivity |].
      intros sess m _ _ Hm Hyes. inversion Hm. subst m. rewrite Htext in Hyes.
      discriminate Hyes.
  - repeat split; [eexists; reflexivity | discriminate | discriminate].
Qed.

Lemma disconnect_by_id_never_posts_witness :
  disconnect_node (answering PNone) (__init__ local_config) None (Some 7%Z)
  = ([], Raise (invalid_characters "")) /\
  disconnect_node (answering PNone) (__init__ local_config) None (Some (one_and_zeros 4300))
  = ([], Raise (ValueError int_too_long)).
Proof.
  split.
  - destruct (disconnect_by_id_never_posts (answering PNone) (__init__ local_config)
                None (Some 7%Z) eq_refl) as (Hev & _ & Hout & _).
    rewrite (surjective_pairing (disconnect_node _ _ _ _)).
    now rewrite Hev, (Hout (_setup_session local_config) 7%Z eq_refl eq_refl eq_refl eq_refl).
  - destruct (disconnect_by_id_never_posts (answering PNone) (__init__ local_config)
                None (Some (one_and_zeros 4300)) eq_refl) as (_ & _ & _ & Hlong).
    exact (Hlong (one_and_zeros 4300) eq_refl eq_refl one_and_zeros_no_text).
Defined.

(** X16.  [get_new_address] cannot ask for an address type without a
    label: with an empty label and an address type it hands [call] an
    empty text as first parameter, which the validator of [call] refuses,
    so nothing is posted and, on an open session, the invalid-parameters
    error -32602 is raised. *)
Theorem address_type_needs_label (w : World) (client : BitcoinRPCClient)
    (address_type : string) :
  address_type <> "" ->
  fst (get_new_address w client "" (Some address_type)) = [] /\
  forall sess : Session,
    session client = Some sess ->
    snd (get_new_address w client "" (Some address_type)) = Raise (invalid_characters "").
Proof.
  intros Hne. destruct address_type as [|c rest]; [contradiction|].
  unfold get_new_address, get_new_address_params. cbn [str_truthy app].
  split.
  - now apply call_refused_events.
  - intros sess Hs.
    now rewrite (call_head_refused w client sess "getnewaddress" (PStr "")
                   [PStr (String c rest)] Hs eq_refl).
Qed.

Lemma address_type_needs_label_witness :
  get_new_address (answering (PStr "bc1q")) (__init__ local_config) "" (Some "bech32")
  = ([], Raise (invalid_characters "")).
Proof.
  assert (Hne : "bech32" <> "") by discriminate.
  destruct (address_type_needs_label (answering (PStr "bc1q")) (__init__ local_config)
              "bech32" Hne) as [Hev Hout].
  rewrite (surjective_pairing (get_new_address _ _ _ _)).
  now rewrite Hev, (Hout (_setup_session local_config) eq_refl).
Defined.

Lemma star_call_refused (w : World) (self : BitcoinRPCClient) (method : string)
    (rest : list PyVal) :
  fst (call w self method (Some (PStr "*" :: rest))) = [] /\
  (exists e : Exn, snd (call w self method (Some (PStr "*" :: rest))) = Raise e) /\
  (forall sess : Session,
     session self = Some sess ->
     call w self method (Some (PStr "*" :: rest)) = ([], Raise (invalid_characters "*"))).
Proof.
  assert (Hrej : forallb accepted (PStr "*" :: rest) = false) by reflexivity.
  destruct (call_refused_events w self method _ Hrej) as [Hev Hraise].
  repeat split; [exact Hev | exact Hraise |].
  intros sess Hs.
  exact (call_head_refused w self sess method (PStr "*") rest Hs eq_refl).
Qed.

(** X17.  [list_transactions] first shows [count] and [skip] in its debug
    line: when one of them has no text (an integer of more than 4300
    digits) it stops there with the [ValueError] of the interpreter's
    limit.  Otherwise its first attempt, made with the account ["*"],
    never reaches the network: the validator of [call] refuses the
    asterisk.  [list_transactions] is then the fallback call alone, and
    with the default account ["*"] it posts nothing and, on an open
    session, raises the invalid-parameters error -32602.  In no case does
    the default account post anything. *)
Theorem list_transactions_is_fallback (w1 w2 : World) (client : BitcoinRPCClient)
    (account count skip include_watchonly : PyVal) :
  fst (list_transactions w1 w2 client (PStr "*") count skip include_watchonly) = [] /\
  (has_text count && has_text skip = true ->
   list_transactions w1 w2 client account count skip include_watchonly
     = call w2 client "listtransactions" (Some [account; count; skip; include_watchonly]) /\
   forall sess : Session,
     session client = Some sess ->
     snd (list_transactions w1 w2 client (PStr "*") count skip include_watchonly)
       = Raise (invalid_characters "*")) /\
  (has_text count && has_text skip = false ->
   list_transactions w1 w2 client account count skip include_watchonly
     = ([], Raise (ValueError int_too_long))).
Proof.
  assert (Hfallback : has_text count && has_text skip = true -> forall acc,
    list_transactions w1 w2 client acc count skip include_watchonly
    = call w2 client "listtransactions" (Some [acc; count; skip; include_watchonly])).
  { intros Htext acc. apply andb_prop in Htext. destruct Htext as [Hcount Hskip].
    unfold list_transactions.
    destruct (two_shown count skip Hcount Hskip) as (sc & ss & -> & ->).
    cbn [bind logged].
    destruct (star_call_refused w1 client "listtransactions" [count; skip; include_watchonly])
      as (Hev & [e He] & _).
    destruct (call w1 client "listtransactions" _) as [events1 outcome1].
    cbn [fst snd] in Hev, He. subst events1 outcome1.
    now destruct (call w2 client "listtransactions" _). }
  assert (Hstop : has_text count && has_text skip = false -> forall acc,
    list_transactions w1 w2 client acc count skip include_watchonly
    = ([], Raise (ValueError int_too_long))).
  { intros Htext acc. unfold list_transactions.
    exact (two_not_shown count skip
             (fun shown_count shown_skip =>
                "Executing listtransactions, count: " ++ shown_count
                ++ ", skip: " ++ shown_skip) _ Htext). }
  destruct (star_call_refused w2 client "listtransactions" [count; skip; include_watchonly])
    as (Hev & _ & Hopen).
  split; [|split].
  - destruct (has_text count && has_text skip) eqn:Htext.
    + now rewrite (Hfallback eq_refl).
    + now rewrite (Hstop eq_refl).
  - intros Htext. split; [now apply Hfallback|].
    intros sess Hs. now rewrite (Hfallback Htext), (Hopen sess Hs).
  - intros Htext. now apply Hstop.
Qed.

Lemma list_transactions_is_fallback_witness :
  list_transactions (answering (PList [])) (answering (PList [])) (__init__ local_config)
    (PStr "*") (PInt 10) (PInt 0) (PBool false)
  = ([], Raise (invalid_characters "*")) /\
  list_transactions (answering (PList [])) (answering (PList [])) (__init__ local_config)
    (PStr "wallet") (PInt (one_and_zeros 4300)) (PInt 0) (PBool false)
  = ([], Raise (ValueError int_too_long)).
Proof.
  split.
  - destruct (list_transactions_is_fallback (answering (PList [])) (answering (PList []))
                (__init__ local_config) (PStr "*") (PInt 10) (PInt 0) (PBool false))
      as (Hev & Hout & _).
    rewrite (surjective_pairing (list_transactions _ _ _ _ _ _ _)).
    now rewrite Hev, (proj2 (Hout eq_refl) (_setup_session local_config) eq_refl).
  - refine (proj2 (proj2 (list_transactions_is_fallback
                            (answering (PList [])) (answering (PList []))
                            (__init__ local_config) (PStr "wallet")
                            (PInt (one_and_zeros 4300)) (PInt 0) (PBool false))) _).
    cbn [has_text]. now rewrite one_and_zeros_no_text.
Defined.

(** X18.  When the first call of [get_balance] fails, the fallback is
    made with the account; with the default account ["*"] the validator
    of [call] refuses it, so that nothing more is posted and, on an open
    session, [get_balance] raises the invalid-parameters error -32602 in
    place of the error of the first call.  When the first call succeeds
    its value is returned and no fallback is made. *)
Theorem balance_fallback_hides_error (w1 w2 : World) (client : BitcoinRPCClient)
    (sess : Session) (min_conf include_watchonly : PyVal) :
  session client = Some sess ->
  (forall e : Exn,
     snd (call w1 client "getbalance" None) = Raise e ->
     get_balance w1 w2 client (PStr "*") min_conf include_watchonly
       = (fst (call w1 client "getbalance" None), Raise (invalid_characters "*"))) /\
  (forall balance : PyVal,
     snd (call w1 client "getbalance" None) = Ok balance ->
     get_balance w1 w2 client (PStr "*") min_conf include_watchonly
       = (fst (call w1 client "getbalance" None), Ok balance)).
Proof.
  intros Hs. unfold get_balance. cbn [str bind logged].
  destruct (star_call_refused w2 client "getbalance" [min_conf; include_watchonly])
    as (_ & _ & Hopen).
  rewrite (Hopen sess Hs).
  destruct (call w1 client "getbalance" None) as [events1 outcome1]. cbn [fst snd].
  split.
  - intros e ->. now rewrite app_nil_r.
  - intros balance ->. reflexivity.
Qed.

Lemma balance_fallback_hides_error_witness :
  get_balance unreachable unreachable (__init__ local_config) (PStr "*") (PInt 1) (PBool false)
  = ([sent unreachable (__init__ local_config) "getbalance" None],
     Raise (invalid_characters "*")).
Proof.
  exact (proj1 (balance_fallback_hides_error unreachable unreachable (__init__ local_config)
                  (_setup_session local_config) (PInt 1) (PBool false) eq_refl)
           (rpc_error "Cannot connect to Bitcoin node at http://127.0.0.1:8332" (-1)) eq_refl).
Defined.

(** X19.  [encrypt_wallet] posts a passphrase only when it has at least 8
    characters and passes the pattern of [sanitize_rpc_param]: apart from
    one final newline, nothing but letters, digits and [-_./:].  A
    shorter passphrase raises the [ValueError] of [encrypt_wallet]; a
    longer one with any other character is refused by [call], on an open
    session with the invalid-parameters error -32602, and in both cases
    nothing is posted. *)
Theorem encrypt_wallet_passphrases (w : World) (client : BitcoinRPCClient)
    (passphrase : string) :
  (fst (encrypt_wallet w client passphrase) <> [] ->
   (8 <= String.length passphrase)%nat /\
   string_forallb allowed_class (chomp passphrase) = true) /\
  ((String.length passphrase < 8)%nat ->
   encrypt_wallet w client passphrase
     = ([], Raise (ValueError "Passphrase must be at least 8 characters"))) /\
  (forall sess : Session,
     session client = Some sess ->
     (8 <= String.length passphrase)%nat ->
     string_forallb allowed_class (chomp passphrase) = false ->
     encrypt_wallet w client passphrase = ([], Raise (invalid_characters passphrase))).
Proof.
  assert (Hshort : (String.length passphrase < 8)%nat ->
    negb (str_truthy passphrase) || (String.length passphrase <? 8)%nat = true).
  { intros H. apply orb_true_iff. right. now apply Nat.ltb_lt. }
  assert (Hlong : (8 <= String.length passphrase)%nat ->
    negb (str_truthy passphrase) || (String.length passphrase <? 8)%nat = false).
  { intros H. apply orb_false_iff. split.
    - destruct passphrase; [cbn in H; lia | reflexivity].
    - now apply Nat.ltb_ge. }
  unfold encrypt_wallet. repeat split.
  - destruct (Nat.lt_ge_cases (String.length passphrase) 8) as [Hlt | Hge]; [|exact Hge].
    rewrite (Hshort Hlt) in H. now destruct H.
  - destruct (Nat.lt_ge_cases (String.length passphrase) 8) as [Hlt | Hge].
    + rewrite (Hshort Hlt) in H. now destruct H.
    + rewrite (Hlong Hge) in H.
      destruct (allowed_chars_match passphrase) eqn:E.
      * rewrite allowed_chars_match_spec in E. apply andb_prop in E. now destruct E.
      * destruct (call_refused_events w client "encryptwallet" [PStr passphrase]) as [Hev _].
        { cbn [forallb accepted]. now rewrite E. }
        now destruct (H Hev).
  - intros Hlt. now rewrite (Hshort Hlt).
  - intros sess Hs Hge Hout. rewrite (Hlong Hge).
    apply (call_head_refused w client sess "encryptwallet" (PStr passphrase) [] Hs).
    cbn [accepted]. apply allowed_chars_match_outside. now right.
Qed.

Lemma encrypt_wallet_passphrases_witness :
  encrypt_wallet (answering PNone) (__init__ local_config) "correct horse"
  = ([], Raise (invalid_characters "correct horse")).
Proof.
  refine (proj2 (proj2 (encrypt_wallet_passphrases (answering PNone) (__init__ local_config)
                          "correct horse"))
            (_setup_session local_config) eq_refl _ eq_refl).
  cbn. lia.
Defined.
